(** * image_size_compressor.js: a shallow embedding and its properties

    The development follows [src/image_size_compressor.js].

    Modelling conventions.
    - A JavaScript [number] is an exact rational ([Q]): the binary64 rounding
      of the arithmetic, [NaN] and the infinities are left out.  Three
      computed values can therefore differ from the ones of the source: the
      products of lines 67-76 before [Math.round] (45 * (7 / 10) is 31.5
      here and 31.499999999999996 in binary64, which rounds to 32 here and
      to 31 there), the midpoint of line 172 (which in binary64 reaches [low]
      after some 57 halvings of the default bounds and here never does) and
      the ratio of line 183 (0.9 ^ k here, about 10 ^ -16 away there).  No
      branch of the retry loop depends on the difference.  Where a
      conclusion would, it is stated so as to hold either way: an order that
      rounding can close is not strict, a rounded side is given to within
      half a pixel and a computed ratio or bracket to within 10 ^ -12.
    - The divisions of lines 72 and 76 by a zero divisor, which take an
      empty image and a negative cap, are outside the rationals too; there
      the canvas size of the model is not the one of the source.
    - A missing, [undefined] or [null] option is [None].  Truthiness of a
      number is [x <> 0]; of a string, being non-empty.
    - A promise is the outcome of the asynchronous computation together with
      the host calls (decode, draw, encode) issued while it ran, in order.
    - The two recursive closures ([binarySearch], [attemptCompression]) are
      structurally recursive on a fuel counter; running out of fuel is a
      separate outcome, shown unreachable for a large enough counter. *)

From Stdlib Require Import QArith Qround Qabs ZArith NArith.
From Stdlib Require Import List String Bool Lia Lqa Sorted.
Import ListNotations.

Open Scope Q_scope.

(** ** JavaScript numbers and operators *)

Definition number := Q.

(** [a < b] and [a <= b] as the tests a JavaScript condition evaluates. *)
Definition ltb (a b : number) : bool := negb (Qle_bool b a).
Definition leb (a b : number) : bool := Qle_bool a b.

(** [Math.round]: the nearest integer, ties towards +infinity. *)
Definition Math_round (x : number) : number := inject_Z (Qfloor (x + (1 # 2))).

Definition Math_abs (x : number) : number := Qabs x.

(** Truthiness of an optional number: [undefined], [null] and [0] are falsy. *)
Definition truthy (o : option number) : bool :=
  match o with
  | Some x => negb (Qeq_bool x 0)
  | None => false
  end.

Definition truthy_string (o : option string) : bool :=
  match o with
  | Some s => negb (String.eqb s EmptyString)
  | None => false
  end.

(** [o || d] with a number default. *)
Definition or_number (o : option number) (d : number) : number :=
  match o with
  | Some x => if truthy o then x else d
  | None => d
  end.

(** [o || null]. *)
Definition or_null (o : option number) : option number :=
  if truthy o then o else None.

(** [o || d] with a string default. *)
Definition or_string (o : option string) (d : string) : string :=
  match o with
  | Some s => if truthy_string o then s else d
  | None => d
  end.

(** ** DOM objects *)

(** A decoded image: its natural size, and its data URL standing for the
    pixels. *)
Record HTMLImageElement := {
  width : N;
  height : N;
  src : string
}.

Definition N2number (n : N) : number := inject_Z (Z.of_N n).

(** A canvas after [drawImage]: the [width] and [height] that lines 80-84
    assign to it and draw at, and what was drawn. *)
Record HTMLCanvasElement := {
  canvas_width : number;
  canvas_height : number;
  canvas_image : HTMLImageElement
}.

(** Lines 61-86.  [downscaleRatio] is always a number on the call path of
    [compressImageToTarget], so the [typeof] test is true.  The products
    handed to [Math.round] are exact here and rounded to binary64 in the
    source, which matters only when the exact product is a tie. *)
Definition drawImageToCanvas (image : HTMLImageElement)
    (maxWidth maxHeight : option number) (downscaleRatio : number)
    : HTMLCanvasElement :=
  let width0 := N2number (width image) in
  let height0 := N2number (height image) in
  let '(width1, height1) :=
    if ltb downscaleRatio 1
    then (Math_round (width0 * downscaleRatio),
          Math_round (height0 * downscaleRatio))
    else (width0, height0) in
  let '(width2, height2) :=
    match maxWidth with
    | Some mw =>
        if truthy maxWidth && ltb mw width1
        then (mw, Math_round (height1 * (mw / width1)))
        else (width1, height1)
    | None => (width1, height1)
    end in
  let '(width3, height3) :=
    match maxHeight with
    | Some mh =>
        if truthy maxHeight && ltb mh height2
        then (Math_round (width2 * (mh / height2)), mh)
        else (width2, height2)
    | None => (width2, height2)
    end in
  {| canvas_width := width3; canvas_height := height3; canvas_image := image |}.

(** The two stages of [drawImageToCanvas] on their own, as the specification
    words them: scale by the ratio, then clamp to the caps. *)
Definition apply_ratio (downscaleRatio : number) (wh : number * number)
    : number * number :=
  if ltb downscaleRatio 1
  then (Math_round (fst wh * downscaleRatio),
        Math_round (snd wh * downscaleRatio))
  else wh.

Definition clamp_width (maxWidth : option number) (wh : number * number)
    : number * number :=
  match maxWidth with
  | Some mw =>
      if negb (Qeq_bool mw 0) && ltb mw (fst wh)
      then (mw, Math_round (snd wh * (mw / fst wh)))
      else wh
  | None => wh
  end.

Definition clamp_height (maxHeight : option number) (wh : number * number)
    : number * number :=
  match maxHeight with
  | Some mh =>
      if negb (Qeq_bool mh 0) && ltb mh (snd wh)
      then (Math_round (fst wh * (mh / snd wh)), mh)
      else wh
  | None => wh
  end.

(** ** The host environment *)

(** What the browser supplies: files, blobs with their [size] in bytes, the
    decoding of a file into an image ([None] when [onerror] fires) and
    [canvas.toBlob] ([None] is the [null] blob). *)
Class Browser := {
  File : Type;
  Blob : Type;
  size : Blob -> number;
  decode : File -> option HTMLImageElement;
  toBlob : HTMLCanvasElement -> string -> number -> option Blob
}.

(** The reasons a promise of this module is rejected with: the [Error] of
    line 123, the error event of [loadImageFromFile], and the [TypeError] of
    reading [blob.size] on a [null] blob. *)
Inductive Error :=
| TargetSizeRequired
| LoadError
| TypeError.

(** The host calls a run issues. *)
Inductive Event `{Browser} :=
| EvLoad (file : File)
| EvDraw (image : HTMLImageElement) (maxWidth maxHeight : option number)
         (downscaleRatio : number)
| EvEncode (canvas : HTMLCanvasElement) (mimeType : string) (quality : number).

Inductive Outcome (A : Type) :=
| Resolved (a : A)
| Rejected (e : Error)
| OutOfFuel.

Arguments Resolved {A} a.
Arguments Rejected {A} e.
Arguments OutOfFuel {A}.

(** A settled promise: its outcome and the host calls made on the way. *)
Definition Promise `{Browser} (A : Type) : Type := (Outcome A * list Event)%type.

Definition resolve `{Browser} {A} (a : A) : Promise A := (Resolved a, []).
Definition reject `{Browser} {A} (e : Error) : Promise A := (Rejected e, []).
Definition diverge `{Browser} {A} : Promise A := (OutOfFuel, []).

(** [p.then(f)] where [f] itself returns a promise. *)
Definition then_ `{Browser} {A B} (p : Promise A) (f : A -> Promise B)
    : Promise B :=
  match fst p with
  | Resolved a => let q := f a in (fst q, snd p ++ snd q)
  | Rejected e => (Rejected e, snd p)
  | OutOfFuel => (OutOfFuel, snd p)
  end.

Notation "x <- p ;; k" := (then_ p (fun x => k))
  (at level 61, p at next level, right associativity).

(** Lines 33-51. *)
Definition loadImageFromFile `{Browser} (file : File)
    : Promise HTMLImageElement :=
  (match decode file with
   | Some img => Resolved img
   | None => Rejected LoadError
   end, [EvLoad file]).

(** Lines 95-101: resolves with the blob, or with [null]. *)
Definition canvasToBlob `{Browser} (canvas : HTMLCanvasElement)
    (mimeType : string) (quality : number) : Promise (option Blob) :=
  (Resolved (toBlob canvas mimeType quality),
   [EvEncode canvas mimeType quality]).

(** The synchronous draw of line 142, with its call recorded. *)
Definition draw `{Browser} (image : HTMLImageElement)
    (maxWidth maxHeight : option number) (downscaleRatio : number)
    : Promise HTMLCanvasElement :=
  (Resolved (drawImageToCanvas image maxWidth maxHeight downscaleRatio),
   [EvDraw image maxWidth maxHeight downscaleRatio]).

(** ** The compressor *)

Record Options := {
  targetSizeKB : option number;
  mimeType : option string;
  maxWidth : option number;
  maxHeight : option number;
  maxIterations : option number;
  minQuality : option number;
  maxQuality : option number;
  allowScaleDown : option bool
}.

(** [options || {}]. *)
Definition no_options : Options :=
  {| targetSizeKB := None; mimeType := None; maxWidth := None;
     maxHeight := None; maxIterations := None; minQuality := None;
     maxQuality := None; allowScaleDown := None |}.

(** The variables of lines 145-149, which [binarySearch] updates. *)
Record SearchState `{Browser} := {
  low : number;
  high : number;
  currentQuality : number;
  iteration : Z;
  bestBlob : option Blob
}.

(** [bestBlob || blob] (line 168): a blob object is truthy. *)
Definition best_or `{Browser} (best : option Blob) (blob : Blob) : Blob :=
  match best with
  | Some b => b
  | None => blob
  end.

(** Line 133. *)
Definition scaleStep : number := 9 # 10.

Section Closure.
Context `{Browser}.

(** The variables of [compressImageToTarget] that the inner closures
    capture (lines 121-136). *)
Variable targetSizeKB' : number.
Variable mimeType' : string.
Variables maxWidth' maxHeight' : option number.
Variable maxIterations' : number.
Variables minQualitySetting maxQualitySetting : number.
Variable allowScaleDown' : bool.
Variable img : HTMLImageElement.

(** Lines 154-165: the bookkeeping after an encode. *)
Definition record_attempt (s : SearchState) (blob : Blob) : SearchState :=
  let sizeKB := size blob / 1024 in
  let s1 :=
    if leb sizeKB targetSizeKB'
    then {| low := currentQuality s; high := high s;
            currentQuality := currentQuality s; iteration := iteration s;
            bestBlob := Some blob |}
    else {| low := low s; high := currentQuality s;
            currentQuality := currentQuality s; iteration := iteration s;
            bestBlob := bestBlob s |} in
  {| low := low s1; high := high s1; currentQuality := currentQuality s1;
     iteration := iteration s1 + 1; bestBlob := bestBlob s1 |}.

(** Line 167. *)
Definition search_done (s : SearchState) (blob : Blob) : bool :=
  leb maxIterations' (inject_Z (iteration s))
  || leb (Math_abs (size blob / 1024 - targetSizeKB')) 5.

(** Line 172.  The midpoint is exact here; in binary64 it is the nearest
    double, which lies in [[low, high]] as well. *)
Definition bisect (s : SearchState) : SearchState :=
  {| low := low s; high := high s;
     currentQuality := (low s + high s) / 2;
     iteration := iteration s; bestBlob := bestBlob s |}.

(** Lines 152-175. *)
Fixpoint binarySearch (canvas : HTMLCanvasElement) (fuel : nat)
    (s : SearchState) : Promise Blob :=
  match fuel with
  | O => diverge
  | S fuel' =>
      blob <- canvasToBlob canvas mimeType' (currentQuality s) ;;
      match blob with
      | None => reject TypeError
      | Some blob =>
          let s' := record_attempt s blob in
          if search_done s' blob
          then resolve (best_or (bestBlob s') blob)
          else binarySearch canvas fuel' (bisect s')
      end
  end.

(** Lines 145-149. *)
Definition initial_search : SearchState :=
  {| low := minQualitySetting; high := maxQualitySetting;
     currentQuality := maxQualitySetting; iteration := 0;
     bestBlob := None |}.

(** Lines 140-189.  [searchFuel] bounds the inner recursion, [fuel] the
    downscale retries.  The ratio of a retry is the exact product here and
    its nearest double in the source. *)
Fixpoint attemptCompression (searchFuel fuel : nat)
    (downscaleRatio : number) : Promise Blob :=
  match fuel with
  | O => diverge
  | S fuel' =>
      canvas <- draw img maxWidth' maxHeight' downscaleRatio ;;
      blobResult <- binarySearch canvas searchFuel initial_search ;;
      let finalSizeKB := size blobResult / 1024 in
      if ltb (targetSizeKB' + 5) finalSizeKB
         && allowScaleDown' && ltb (1 # 4) downscaleRatio
      then attemptCompression searchFuel fuel' (downscaleRatio * scaleStep)
      else resolve blobResult
  end.

End Closure.

(** Lines 118-194.  One counter serves both recursions. *)
Definition compressImageToTarget `{Browser} (fuel : nat) (file : File)
    (options : option Options) : Promise Blob :=
  let options :=
    match options with Some o => o | None => no_options end in
  match targetSizeKB options with
  | None => reject TargetSizeRequired
  | Some targetSizeKB' =>
      if negb (truthy (Some targetSizeKB'))
      then reject TargetSizeRequired
      else
        let mimeType' := or_string (mimeType options) "image/jpeg" in
        let maxWidth' := or_null (maxWidth options) in
        let maxHeight' := or_null (maxHeight options) in
        let maxIterations' := or_number (maxIterations options) 10 in
        let minQualitySetting := or_number (minQuality options) (1 # 10) in
        let maxQualitySetting := or_number (maxQuality options) (95 # 100) in
        let allowScaleDown' :=
          match allowScaleDown options with
          | Some false => false
          | _ => true
          end in
        img <- loadImageFromFile file ;;
        attemptCompression targetSizeKB' mimeType' maxWidth' maxHeight'
          maxIterations' minQualitySetting maxQualitySetting allowScaleDown'
          img fuel fuel 1
  end.

(** ** Reading a run *)

(** The [downscaleRatio] of every draw of a run, in order. *)
Definition ratios_used `{Browser} (calls : list Event) : list number :=
  flat_map (fun e => match e with
                     | EvDraw _ _ _ r => [r]
                     | _ => []
                     end) calls.

(** The quality of every encode of a run, in order. *)
Definition qualities_tried `{Browser} (calls : list Event) : list number :=
  flat_map (fun e => match e with
                     | EvEncode _ _ q => [q]
                     | _ => []
                     end) calls.

(** ** A synthetic host

    The encoder of the specification's scenarios: whatever is drawn, the blob
    encoded at quality [q] weighs [1000 * q] KB.  A blob is identified with
    its size in bytes. *)
Definition synthetic_image : HTMLImageElement :=
  {| width := 4000; height := 3000; src := "data:image/png;base64," |}.

#[local] Instance synthetic : Browser := {|
  File := unit;
  Blob := number;
  size := fun b => b;
  decode := fun _ => Some synthetic_image;
  toBlob := fun _ _ q => Some (1000 * q * 1024)
|}.

Definition options_for (target : number) : Options :=
  {| targetSizeKB := Some target; mimeType := None; maxWidth := None;
     maxHeight := None; maxIterations := None; minQuality := None;
     maxQuality := None; allowScaleDown := None |}.

(** The search of the convergence scenario: target 300 KB, bounds
    [0.1, 0.95], at most 10 iterations. *)
Definition synthetic_search (canvas : HTMLCanvasElement) (fuel : nat)
    : Promise Blob :=
  binarySearch 300 "image/jpeg" 10 canvas fuel
    (initial_search (1 # 10) (95 # 100)).

Definition synthetic_canvas : HTMLCanvasElement :=
  drawImageToCanvas synthetic_image None None 1.

(** The same search against a target of 50 KB, below anything the synthetic
    encoder produces on [0.1, 0.95]. *)
Definition starved_search (canvas : HTMLCanvasElement) (fuel : nat)
    : Promise Blob :=
  binarySearch 50 "image/jpeg" 10 canvas fuel
    (initial_search (1 # 10) (95 # 100)).

(** The blob a settled promise resolved with ([0] bytes otherwise). *)
Definition resolved_blob (p : @Promise synthetic number) : number :=
  match fst p with
  | Resolved b => b
  | _ => 0
  end.

(** The ratio after [k] retries from [r] (line 183, [k] times). *)
Fixpoint shrunk (k : nat) (r : number) : number :=
  match k with
  | O => r
  | S k' => shrunk k' (r * scaleStep)
  end.

(** Line 182, as a test on the blob the search returned. *)
Definition retries `{Browser} (targetSizeKB' : number) (allowScaleDown' : bool)
    (downscaleRatio : number) (blobResult : Blob) : bool :=
  ltb (targetSizeKB' + 5) (size blobResult / 1024)
  && allowScaleDown' && ltb (1 # 4) downscaleRatio.

(** A counter that covers both recursions of a call: the 15 attempts that
    the ratios 1, 0.9, ..., 0.9^14 allow, and the iterations that the
    effective [maxIterations] allows. *)
Definition enough_fuel (options : option Options) : nat :=
  let o := match options with Some o => o | None => no_options end in
  Nat.max 15 (Z.to_nat (Qceiling (or_number (maxIterations o) 10))).

(** An options object with one property replaced. *)
Definition with_minQuality (v : option number) (o : Options) : Options :=
  {| targetSizeKB := targetSizeKB o; mimeType := mimeType o;
     maxWidth := maxWidth o; maxHeight := maxHeight o;
     maxIterations := maxIterations o; minQuality := v;
     maxQuality := maxQuality o; allowScaleDown := allowScaleDown o |}.

Definition with_maxIterations (v : option number) (o : Options) : Options :=
  {| targetSizeKB := targetSizeKB o; mimeType := mimeType o;
     maxWidth := maxWidth o; maxHeight := maxHeight o;
     maxIterations := v; minQuality := minQuality o;
     maxQuality := maxQuality o; allowScaleDown := allowScaleDown o |}.

Definition with_maxWidth (v : option number) (o : Options) : Options :=
  {| targetSizeKB := targetSizeKB o; mimeType := mimeType o;
     maxWidth := v; maxHeight := maxHeight o;
     maxIterations := maxIterations o; minQuality := minQuality o;
     maxQuality := maxQuality o; allowScaleDown := allowScaleDown o |}.

Definition with_maxHeight (v : option number) (o : Options) : Options :=
  {| targetSizeKB := targetSizeKB o; mimeType := mimeType o;
     maxWidth := maxWidth o; maxHeight := v;
     maxIterations := maxIterations o; minQuality := minQuality o;
     maxQuality := maxQuality o; allowScaleDown := allowScaleDown o |}.

Definition with_maxQuality (v : option number) (o : Options) : Options :=
  {| targetSizeKB := targetSizeKB o; mimeType := mimeType o;
     maxWidth := maxWidth o; maxHeight := maxHeight o;
     maxIterations := maxIterations o; minQuality := minQuality o;
     maxQuality := v; allowScaleDown := allowScaleDown o |}.

Definition with_mimeType (v : option string) (o : Options) : Options :=
  {| targetSizeKB := targetSizeKB o; mimeType := v;
     maxWidth := maxWidth o; maxHeight := maxHeight o;
     maxIterations := maxIterations o; minQuality := minQuality o;
     maxQuality := maxQuality o; allowScaleDown := allowScaleDown o |}.

Definition with_allowScaleDown (v : option bool) (o : Options) : Options :=
  {| targetSizeKB := targetSizeKB o; mimeType := mimeType o;
     maxWidth := maxWidth o; maxHeight := maxHeight o;
     maxIterations := maxIterations o; minQuality := minQuality o;
     maxQuality := maxQuality o; allowScaleDown := v |}.

(** The [targetSizeKB] a call reads at line 121. *)
Definition requested_target (options : option Options) : option number :=
  match options with
  | Some o => targetSizeKB o
  | None => None
  end.

(** A call whose target of 1 KB no quality and no ratio reaches: every retry
    the loop allows is taken. *)
Definition unreachable_run : Promise Blob :=
  compressImageToTarget 20 tt (Some (options_for 1)).

(** A call with a negative target. *)
Definition negative_run : Promise Blob :=
  compressImageToTarget 20 tt (Some (options_for (-1))).

(** A call with a target of 0. *)
Definition zero_run : Promise Blob :=
  compressImageToTarget 20 tt (Some (options_for 0)).

(** The qualities of a search that only ever lowers [high]: from [q], each
    next one is halfway down to [minQ] (line 172 with [low = minQ]).
    [descent minQ m q] lists [m + 1] of them, [descend minQ m q] is the
    last. *)
Fixpoint descend (minQ : number) (m : nat) (q : number) : number :=
  match m with
  | O => q
  | S m' => descend minQ m' ((minQ + q) / 2)
  end.

Fixpoint descent (minQ : number) (m : nat) (q : number) : list number :=
  q :: match m with
       | O => []
       | S m' => descent minQ m' ((minQ + q) / 2)
       end.

(** The number of encodes that line 167 allows when the tolerance never
    stops the search: the least whole number that is at least
    [maxIterations], and at least 1. *)
Definition iterations_allowed (maxIterations' : number) : nat :=
  Z.to_nat (Z.max 1 (Qceiling maxIterations')).

(** A call with scaling down switched off and a target of 50 KB, which the
    synthetic encoder exceeds at every quality of [0.1, 0.95]. *)
Definition fixed_size_run : Promise Blob :=
  compressImageToTarget 20 tt
    (Some (with_allowScaleDown (Some false) (options_for 50))).

(** A source whose width and height both need clamping when the width cap is
    not a whole number of pixels. *)
Definition tall_image : HTMLImageElement :=
  {| width := 106; height := 10000; src := "data:image/png;base64," |}.

(** A cap given as a positive whole number of pixels, or not given. *)
Definition whole_pixels (cap : option number) : Prop :=
  forall m, cap = Some m -> exists z : Z, (0 < z)%Z /\ m == inject_Z z.


(** The states a quality search goes through: the state an iteration starts
    from ([BeforeEncode]) and the one it has after the bookkeeping of lines
    157-165 ([AfterEncode]); a further iteration starts only when line 167 did
    not stop the search. *)
Inductive Phase := BeforeEncode | AfterEncode.

Inductive search_visits `{Browser} (targetSizeKB' : number) (mimeType' : string)
    (maxIterations' : number) (canvas : HTMLCanvasElement) (s0 : SearchState)
    : Phase -> SearchState -> Prop :=
| visit_start :
    search_visits targetSizeKB' mimeType' maxIterations' canvas s0
      BeforeEncode s0
| visit_record s blob :
    search_visits targetSizeKB' mimeType' maxIterations' canvas s0
      BeforeEncode s ->
    toBlob canvas mimeType' (currentQuality s) = Some blob ->
    search_visits targetSizeKB' mimeType' maxIterations' canvas s0
      AfterEncode (record_attempt targetSizeKB' s blob)
| visit_bisect s blob :
    search_visits targetSizeKB' mimeType' maxIterations' canvas s0
      BeforeEncode s ->
    toBlob canvas mimeType' (currentQuality s) = Some blob ->
    search_done targetSizeKB' maxIterations'
      (record_attempt targetSizeKB' s blob) blob = false ->
    search_visits targetSizeKB' mimeType' maxIterations' canvas s0
      BeforeEncode (bisect (record_attempt targetSizeKB' s blob)).

(** A quality whose blob is at most the target: the test of line 157
    succeeds on it. *)
Definition conforming `{Browser} (targetSizeKB' : number)
    (canvas : HTMLCanvasElement) (mimeType' : string) (q : number) : Prop :=
  exists b, toBlob canvas mimeType' q = Some b /\ size b / 1024 <= targetSizeKB'.

(** A non-negative whole number. *)
Definition whole (x : number) : Prop :=
  exists z : Z, (0 <= z)%Z /\ x == inject_Z z.

(** A cap that is absent, zero or positive. *)
Definition cap_nonneg (cap : option number) : Prop :=
  forall m, cap = Some m -> 0 <= m.

(** The state of the convergence scenario after its first encode, at
    quality 0.95, and the bisection that follows. *)
Definition synthetic_second_state : @SearchState synthetic :=
  bisect (record_attempt 300 (initial_search (1 # 10) (95 # 100))
            (1000 * (95 # 100) * 1024)).

(** Every draw of a run is directly followed by an encode of the canvas
    just drawn, at quality [q0]. *)
Fixpoint draws_start_at `{Browser} (q0 : number) (calls : list Event) : Prop :=
  match calls with
  | [] => True
  | EvDraw i mw mh r :: rest =>
      match rest with
      | EvEncode c _ q :: _ => c = drawImageToCanvas i mw mh r /\ q = q0
      | _ => False
      end
      /\ draws_start_at q0 rest
  | _ :: rest => draws_start_at q0 rest
  end.

(** The starved search with equal bounds, as a request with
    [minQuality: 0.95] and the default [maxQuality] starts it. *)
Definition equal_bounds_search (canvas : HTMLCanvasElement) (fuel : nat)
    : Promise Blob :=
  binarySearch 50 "image/jpeg" 10 canvas fuel
    (initial_search (95 # 100) (95 # 100)).

(** The starved search with inverted bounds, [minQuality: 0.9] above
    [maxQuality: 0.5], and three iterations. *)
Definition inverted_bounds_search (canvas : HTMLCanvasElement) (fuel : nat)
    : Promise Blob :=
  binarySearch 50 "image/jpeg" 3 canvas fuel
    (initial_search (9 # 10) (5 # 10)).

(** * Properties *)

(** ** Comparisons and rounding *)

Lemma ltb_lt (a b : number) : ltb a b = true <-> a < b.
Proof.
  unfold ltb. rewrite negb_true_iff. split; intro Hab.
  - apply Qnot_le_lt. intro Hle. apply Qle_bool_iff in Hle. congruence.
  - destruct (Qle_bool b a) eqn:E; [|reflexivity].
    apply Qle_bool_iff in E. exfalso. apply (Qlt_not_le _ _ Hab E).
Qed.

Lemma ltb_ge (a b : number) : ltb a b = false <-> b <= a.
Proof.
  unfold ltb. rewrite negb_false_iff. apply Qle_bool_iff.
Qed.

Lemma leb_le (a b : number) : leb a b = true <-> a <= b.
Proof. apply Qle_bool_iff. Qed.

Lemma leb_gt (a b : number) : leb a b = false <-> b < a.
Proof.
  unfold leb. split; intro Hab.
  - apply Qnot_le_lt. intro Hle. apply Qle_bool_iff in Hle. congruence.
  - destruct (Qle_bool a b) eqn:E; [|reflexivity].
    apply Qle_bool_iff in E. exfalso. apply (Qlt_not_le _ _ Hab E).
Qed.

Lemma truthy_nonzero (x : number) : truthy (Some x) = true <-> ~ x == 0.
Proof.
  simpl. rewrite negb_true_iff. split; intro Hx.
  - intro E. apply Qeq_bool_iff in E. congruence.
  - destruct (Qeq_bool x 0) eqn:E; [|reflexivity].
    apply Qeq_bool_iff in E. contradiction.
Qed.

Lemma truthy_pos (x : number) : 0 < x -> truthy (Some x) = true.
Proof. intro Hx. apply truthy_nonzero. intro E. rewrite E in Hx. lra. Qed.

Lemma Math_round_nonneg (x : number) : 0 <= x -> 0 <= Math_round x.
Proof.
  intro Hx. unfold Math_round.
  change 0 with (inject_Z 0). rewrite <- Zle_Qle.
  apply Qfloor_resp_le with (x := 0) (y := x + (1 # 2)). lra.
Qed.

(** Rounding cannot cross a whole number from below. *)
Lemma Math_round_le_int (x : number) (z : Z) :
  x <= inject_Z z -> Math_round x <= inject_Z z.
Proof.
  intro Hx. unfold Math_round. rewrite <- Zle_Qle.
  apply Z.lt_succ_r. rewrite Zlt_Qlt.
  apply Qle_lt_trans with (x + (1 # 2)); [apply Qfloor_le|].
  unfold Z.succ. rewrite inject_Z_plus. change (inject_Z 1) with 1. lra.
Qed.

Lemma N2number_nonneg (n : N) : 0 <= N2number n.
Proof.
  unfold N2number. change 0 with (inject_Z 0). rewrite <- Zle_Qle. lia.
Qed.

Lemma Math_round_bounds (x : number) :
  x - (1 # 2) < Math_round x /\ Math_round x <= x + (1 # 2).
Proof.
  unfold Math_round.
  pose proof (Qfloor_le (x + (1 # 2))) as Hle.
  pose proof (Qlt_floor (x + (1 # 2))) as Hlt.
  rewrite inject_Z_plus in Hlt. change (inject_Z 1) with 1 in Hlt.
  split; lra.
Qed.

Lemma Math_round_whole (x : number) : 0 <= x -> whole (Math_round x).
Proof.
  intro Hx. exists (Qfloor (x + (1 # 2))). split; [|reflexivity].
  pose proof (Math_round_nonneg x Hx) as Hr. unfold Math_round in Hr.
  change 0 with (inject_Z 0) in Hr. rewrite <- Zle_Qle in Hr. exact Hr.
Qed.

Lemma N2number_whole (n : N) : whole (N2number n).
Proof. exists (Z.of_N n). split; [lia|reflexivity]. Qed.

Lemma whole_nonneg (x : number) : whole x -> 0 <= x.
Proof.
  intros (z & Hz & ->). change 0 with (inject_Z 0). rewrite <- Zle_Qle.
  exact Hz.
Qed.

(** ** Drawing: lines 61-86 *)

Lemma ratio_stage_nonneg (image : HTMLImageElement) (r : number) :
  0 <= r ->
  0 <= fst (apply_ratio r (N2number (width image), N2number (height image)))
  /\ 0 <= snd (apply_ratio r (N2number (width image), N2number (height image))).
Proof.
  intro Hr. unfold apply_ratio.
  pose proof (N2number_nonneg (width image)) as Hw.
  pose proof (N2number_nonneg (height image)) as Hh.
  destruct (ltb r 1); simpl; [|tauto].
  split; apply Math_round_nonneg; nra.
Qed.

Lemma drawImageToCanvas_stages (image : HTMLImageElement)
    (maxWidth maxHeight : option number) (r : number) :
  let c := drawImageToCanvas image maxWidth maxHeight r in
  (canvas_width c, canvas_height c)
  = clamp_height maxHeight
      (clamp_width maxWidth
         (apply_ratio r (N2number (width image), N2number (height image)))).
Proof.
  unfold drawImageToCanvas, apply_ratio, clamp_width, clamp_height.
  destruct (ltb r 1); cbn [fst snd];
    destruct maxWidth as [mw|]; cbn [truthy fst snd];
    try destruct (negb (Qeq_bool mw 0) && ltb mw _); cbn [fst snd];
    destruct maxHeight as [mh|]; cbn [truthy fst snd];
    try destruct (negb (Qeq_bool mh 0) && ltb mh _); reflexivity.
Qed.




Lemma scale_by_fraction (a m s : number) :
  0 <= a -> 0 < m -> m < s -> 0 <= a * (m / s) /\ a * (m / s) <= a.
Proof.
  intros Ha Hm Hs.
  assert (Hq0 : 0 <= m / s) by (apply Qle_shift_div_l; lra).
  assert (Hq1 : m / s <= 1) by (apply Qle_shift_div_r; lra).
  split; nra.
Qed.

Lemma clamp_width_spec (maxWidth : option number) (p : number * number) :
  whole_pixels maxWidth -> 0 <= fst p -> 0 <= snd p ->
  let p' := clamp_width maxWidth p in
  0 <= fst p' /\ 0 <= snd p'
  /\ forall mw, maxWidth = Some mw -> fst p' <= mw.
Proof.
  intros Hcap Hw Hh. unfold clamp_width.
  destruct maxWidth as [mw|]; cbn zeta.
  - destruct (Hcap mw eq_refl) as (z & Hz & Emw).
    assert (Hpos : 0 < mw).
    { rewrite Emw. change 0 with (inject_Z 0). rewrite <- Zlt_Qlt. exact Hz. }
    pose proof (truthy_pos mw Hpos) as Ht. simpl in Ht. rewrite Ht.
    cbn [andb]. destruct (ltb mw (fst p)) eqn:E.
    + apply ltb_lt in E. cbn [fst snd].
      repeat split; try lra.
      * apply Math_round_nonneg.
        apply (scale_by_fraction (snd p) mw (fst p)); assumption.
      * intros mw' [= <-]. lra.
    + apply ltb_ge in E. repeat split; try assumption.
      intros mw' [= <-]. exact E.
  - repeat split; try assumption. intros mw' [=].
Qed.

Lemma clamp_height_spec (maxHeight : option number) (p : number * number)
    (bound : Z) :
  whole_pixels maxHeight -> 0 <= fst p -> 0 <= snd p ->
  fst p <= inject_Z bound ->
  let p' := clamp_height maxHeight p in
  fst p' <= inject_Z bound
  /\ forall mh, maxHeight = Some mh -> snd p' <= mh.
Proof.
  intros Hcap Hw Hh Hb. unfold clamp_height.
  destruct maxHeight as [mh|]; cbn zeta.
  - destruct (Hcap mh eq_refl) as (z & Hz & Emh).
    assert (Hpos : 0 < mh).
    { rewrite Emh. change 0 with (inject_Z 0). rewrite <- Zlt_Qlt. exact Hz. }
    pose proof (truthy_pos mh Hpos) as Ht. simpl in Ht. rewrite Ht.
    cbn [andb]. destruct (ltb mh (snd p)) eqn:E.
    + apply ltb_lt in E. cbn [fst snd]. split.
      * apply Math_round_le_int.
        destruct (scale_by_fraction (fst p) mh (snd p)) as [_ Hle];
          try assumption. lra.
      * intros mh' [= <-]. lra.
    + apply ltb_ge in E. split; [assumption|].
      intros mh' [= <-]. exact E.
  - split; [assumption|]. intros mh' [=].
Qed.

(** C10, for caps that are whole numbers of pixels.  With every given cap a
    positive integer and [0 < downscaleRatio <= 1], the canvas is no wider
    than [maxWidth] and no taller than [maxHeight], rounding included. *)
Theorem drawImageToCanvas_within_caps (image : HTMLImageElement)
    (maxWidth maxHeight : option number) (downscaleRatio : number) :
  whole_pixels maxWidth -> whole_pixels maxHeight ->
  0 < downscaleRatio -> downscaleRatio <= 1 ->
  let c := drawImageToCanvas image maxWidth maxHeight downscaleRatio in
  (forall mw, maxWidth = Some mw -> canvas_width c <= mw)
  /\ (forall mh, maxHeight = Some mh -> canvas_height c <= mh).
Proof.
  intros HW HH Hr0 Hr1 c.
  pose proof (drawImageToCanvas_stages image maxWidth maxHeight downscaleRatio)
    as Hc.
  cbn zeta in Hc. fold c in Hc.
  set (p1 := apply_ratio downscaleRatio
               (N2number (width image), N2number (height image))) in Hc.
  destruct (ratio_stage_nonneg image downscaleRatio) as [Hw1 Hh1]; [lra|].
  fold p1 in Hw1, Hh1.
  destruct (clamp_width_spec maxWidth p1 HW Hw1 Hh1) as (Hw2 & Hh2 & Hcapw).
  set (p2 := clamp_width maxWidth p1) in *.
  assert (Ecw : canvas_width c = fst (clamp_height maxHeight p2))
    by (change (canvas_width c) with (fst (canvas_width c, canvas_height c));
        rewrite Hc; reflexivity).
  assert (Ech : canvas_height c = snd (clamp_height maxHeight p2))
    by (change (canvas_height c) with (snd (canvas_width c, canvas_height c));
        rewrite Hc; reflexivity).
  rewrite Ecw, Ech. split.
  - intros mw Emw. destruct (HW mw Emw) as (z & _ & Ez).
    rewrite Ez.
    apply (clamp_height_spec maxHeight p2 z HH Hw2 Hh2).
    rewrite <- Ez. apply Hcapw. exact Emw.
  - intros mh Emh.
    destruct (clamp_height_spec maxHeight p2 (Qceiling (fst p2)) HH Hw2 Hh2
                (Qle_ceiling _)) as [_ Hcaph].
    apply Hcaph. exact Emh.
Qed.

Lemma drawImageToCanvas_within_caps_witness :
  (whole_pixels (Some 1920) /\ whole_pixels (Some 1080)
   /\ 0 < 9 # 10 /\ 9 # 10 <= 1)
  /\ canvas_width (drawImageToCanvas synthetic_image (Some 1920) (Some 1080)
                     (9 # 10)) <= 1920
  /\ canvas_height (drawImageToCanvas synthetic_image (Some 1920) (Some 1080)
                      (9 # 10)) <= 1080.
Proof.
  assert (H1 : whole_pixels (Some 1920)).
  { intros m [= <-]. exists 1920%Z. split; reflexivity. }
  assert (H2 : whole_pixels (Some 1080)).
  { intros m [= <-]. exists 1080%Z. split; reflexivity. }
  assert (H3 : 0 < 9 # 10) by reflexivity.
  assert (H4 : 9 # 10 <= 1) by (intro E; discriminate E).
  split; [repeat split; assumption|].
  pose proof (drawImageToCanvas_within_caps synthetic_image (Some 1920)
                (Some 1080) (9 # 10) H1 H2 H3 H4) as [Hw Hh].
  split; [apply (Hw 1920 eq_refl) | apply (Hh 1080 eq_refl)].
Defined.

(** C10 as stated fails for a cap that is not a whole number: a 106 x 10000
    source with [maxWidth = 10.6] and [maxHeight = 999] is clamped to
    10.6 x 1000, then to [Math.round(10.5894) = 11] x 999, wider than the
    cap. *)
Lemma drawImageToCanvas_fractional_cap_exceeded :
  0 < 106 # 10 /\ 0 < 999 /\ 0 < 1 /\ 1 <= 1
  /\ canvas_width (drawImageToCanvas tall_image (Some (106 # 10)) (Some 999) 1)
     == 11
  /\ ~ canvas_width (drawImageToCanvas tall_image (Some (106 # 10)) (Some 999) 1)
       <= 106 # 10.
Proof.
  repeat split; try (intro E; discriminate E).
  vm_compute. intro E. apply E. reflexivity.
Qed.

(** ** The quality search: lines 145-175 *)

Section Search.
Context `{Browser}.
Variables (target : number) (mime : string) (maxIter : number).
Variable canvas : HTMLCanvasElement.

Local Abbreviation search := (binarySearch target mime maxIter canvas).
Local Abbreviation recorded := (record_attempt target).
Local Abbreviation finished := (search_done target maxIter).

(** One unfolding of the recursion. *)
Lemma binarySearch_S (fuel : nat) (s : SearchState) :
  search (S fuel) s =
  match toBlob canvas mime (currentQuality s) with
  | None => (Rejected TypeError, [EvEncode canvas mime (currentQuality s)])
  | Some blob =>
      if finished (recorded s blob) blob
      then (Resolved (best_or (bestBlob (recorded s blob)) blob),
            [EvEncode canvas mime (currentQuality s)])
      else (fst (search fuel (bisect (recorded s blob))),
            EvEncode canvas mime (currentQuality s)
            :: snd (search fuel (bisect (recorded s blob))))
  end.
Proof.
  cbn [binarySearch]. unfold then_, canvasToBlob. cbn [fst snd].
  destruct (toBlob canvas mime (currentQuality s)) as [blob|];
    [|reflexivity].
  destruct (finished (recorded s blob) blob); reflexivity.
Qed.

(** The tolerance test of line 167, in bytes: 5 KB is 5120 bytes. *)
Lemma tolerance_in_bytes (bytes : number) :
  Math_abs (bytes / 1024 - target) <= 5
  <-> Math_abs (bytes - target * 1024) <= 5 * 1024.
Proof.
  unfold Math_abs. rewrite !Qabs_Qle_condition.
  assert (E : bytes / 1024 == bytes * (1 # 1024)) by reflexivity.
  rewrite E. split; intros [H1 H2]; split; lra.
Qed.

Lemma search_done_iff (s : SearchState) (blob : Blob) :
  finished s blob = true
  <-> maxIter <= inject_Z (iteration s)
      \/ Math_abs (size blob - target * 1024) <= 5 * 1024.
Proof.
  unfold search_done. rewrite orb_true_iff, !leb_le, tolerance_in_bytes.
  reflexivity.
Qed.

(** Last write wins: a search that resolves returns the blob of the last
    quality it tried whose blob fitted the target; failing any, the
    [bestBlob] it started with; failing that too, the blob of the last
    quality it tried. *)
Lemma search_last_write (fuel : nat) :
  forall s blob calls,
    search fuel s = (Resolved blob, calls) ->
    (exists pre q post,
        qualities_tried calls = pre ++ q :: post
        /\ toBlob canvas mime q = Some blob
        /\ size blob / 1024 <= target
        /\ Forall (fun q' => ~ conforming target canvas mime q') post)
    \/ (Forall (fun q' => ~ conforming target canvas mime q')
               (qualities_tried calls)
        /\ (bestBlob s = Some blob
            \/ (bestBlob s = None
                /\ exists pre q,
                     qualities_tried calls = pre ++ [q]
                     /\ toBlob canvas mime q = Some blob))).
Proof.
  induction fuel as [|fuel IH]; intros s blob calls Hrun;
    [discriminate Hrun|].
  rewrite binarySearch_S in Hrun.
  destruct (toBlob canvas mime (currentQuality s)) as [b|] eqn:Hb;
    [|discriminate Hrun].
  assert (Hrec : (size b / 1024 <= target
                  /\ bestBlob (recorded s b) = Some b)
                 \/ (target < size b / 1024
                     /\ bestBlob (recorded s b) = bestBlob s)).
  { unfold record_attempt.
    destruct (leb (size b / 1024) target) eqn:E; cbn [bestBlob].
    - left. apply leb_le in E. split; [exact E|reflexivity].
    - right. apply leb_gt in E. split; [exact E|reflexivity]. }
  set (s1 := recorded s b) in *.
  assert (Hcons : forall l, qualities_tried
                              (EvEncode canvas mime (currentQuality s) :: l)
                            = currentQuality s :: qualities_tried l)
    by reflexivity.
  destruct (finished s1 b).
  - assert (Hblob : best_or (bestBlob s1) b = blob) by congruence.
    assert (Hcalls : [EvEncode canvas mime (currentQuality s)] = calls)
      by congruence.
    subst calls. rewrite Hcons. cbn [qualities_tried flat_map].
    destruct Hrec as [(Hfit & Eb)|(Hover & Eb)]; rewrite Eb in Hblob.
    + cbn [best_or] in Hblob. subst blob. left.
      exists [], (currentQuality s), []. repeat split; try assumption.
      constructor.
    + right. split.
      * repeat constructor. intros (b' & Hb' & Hle).
        rewrite Hb in Hb'. injection Hb' as <-. lra.
      * destruct (bestBlob s) as [b0|]; cbn [best_or] in Hblob; subst blob.
        -- left. reflexivity.
        -- right. split; [reflexivity|].
           exists [], (currentQuality s). split; [reflexivity|exact Hb].
  - set (s2 := bisect s1) in *.
    assert (Hfst : fst (search fuel s2) = Resolved blob) by congruence.
    assert (Hcalls : EvEncode canvas mime (currentQuality s)
                     :: snd (search fuel s2) = calls) by congruence.
    subst calls. rewrite Hcons.
    assert (Hrun2 : search fuel s2 = (Resolved blob, snd (search fuel s2)))
      by (rewrite <- Hfst; apply surjective_pairing).
    destruct (IH s2 blob _ Hrun2)
      as [(pre & q & post & Ht & Hq & Hsz & Hpost)|(Hnone & Hbest)].
    + left. exists (currentQuality s :: pre), q, post.
      rewrite Ht. repeat split; assumption.
    + change (bestBlob s2) with (bestBlob s1) in Hbest.
      destruct Hrec as [(Hfit & Eb)|(Hover & Eb)]; rewrite Eb in Hbest.
      * destruct Hbest as [Hbest|(Hbest & _)]; [|discriminate Hbest].
        injection Hbest as <-. left.
        exists [], (currentQuality s), (qualities_tried (snd (search fuel s2))).
        repeat split; assumption.
      * right. split.
        -- constructor; [|exact Hnone]. intros (b' & Hb' & Hle).
           rewrite Hb in Hb'. injection Hb' as <-. lra.
        -- destruct Hbest as [Hbest|(Hbest & pre & q & Ht & Hq)];
             [left; exact Hbest|].
           right. split; [exact Hbest|].
           exists (currentQuality s :: pre), q. rewrite Ht.
           split; [reflexivity|exact Hq].
Qed.

(** C2.  An iteration encodes at [currentQuality].  A blob of at most the
    target size becomes [bestBlob] and [currentQuality] the new [low];
    otherwise [currentQuality] becomes the new [high].  The search stops
    exactly when the incremented [iteration] has reached [maxIterations] or
    the size is within 5 KiB (5120 bytes) of the target, and returns
    [bestBlob] if set, else the blob just encoded; when it goes on, it does
    so at quality [(low + high) / 2].  Over a whole search this makes the
    blob returned the last one encoded that fitted the target, and the last
    one encoded when none fitted. *)
Theorem binarySearch_iteration (fuel : nat) (s : SearchState) :
  (forall blob,
      toBlob canvas mime (currentQuality s) = Some blob ->
      let sizeKB := size blob / 1024 in
      let s' := recorded s blob in
      let stop := maxIter <= inject_Z (iteration s')
                  \/ Math_abs (size blob - target * 1024) <= 5 * 1024 in
      let next := {| low := low s'; high := high s';
                     currentQuality := (low s' + high s') / 2;
                     iteration := iteration s'; bestBlob := bestBlob s' |} in
      (sizeKB <= target ->
         bestBlob s' = Some blob /\ low s' = currentQuality s
         /\ high s' = high s)
      /\ (~ sizeKB <= target ->
           bestBlob s' = bestBlob s /\ low s' = low s
           /\ high s' = currentQuality s)
      /\ iteration s' = (iteration s + 1)%Z
      /\ (stop ->
           search (S fuel) s
           = (Resolved (match bestBlob s' with
                        | Some best => best
                        | None => blob
                        end),
              [EvEncode canvas mime (currentQuality s)]))
      /\ (~ stop ->
           search (S fuel) s
           = (fst (search fuel next),
              EvEncode canvas mime (currentQuality s)
              :: snd (search fuel next))))
  /\ (forall minQ maxQ result calls,
        search fuel (initial_search minQ maxQ) = (Resolved result, calls) ->
        (exists pre q post,
            qualities_tried calls = pre ++ q :: post
            /\ toBlob canvas mime q = Some result
            /\ size result / 1024 <= target
            /\ Forall (fun q' => ~ conforming target canvas mime q') post)
        \/ (Forall (fun q' => ~ conforming target canvas mime q')
                   (qualities_tried calls)
            /\ exists pre q,
                 qualities_tried calls = pre ++ [q]
                 /\ toBlob canvas mime q = Some result)).
Proof.
  split.
  - intros blob Hblob sizeKB s' stop next.
    assert (Hfits : sizeKB <= target ->
              bestBlob s' = Some blob /\ low s' = currentQuality s
              /\ high s' = high s).
    { intro Hle. apply leb_le in Hle. subst s'. unfold record_attempt.
      fold sizeKB. rewrite Hle. repeat split. }
    assert (Hover : ~ sizeKB <= target ->
              bestBlob s' = bestBlob s /\ low s' = low s
              /\ high s' = currentQuality s).
    { intro Hgt. apply Qnot_le_lt, leb_gt in Hgt. subst s'.
      unfold record_attempt. fold sizeKB. rewrite Hgt. repeat split. }
    assert (Hiter : iteration s' = (iteration s + 1)%Z).
    { subst s'. unfold record_attempt. destruct (leb _ _); reflexivity. }
    split; [exact Hfits|]. split; [exact Hover|]. split; [exact Hiter|].
    split.
    + intro Hstop. apply search_done_iff in Hstop.
      rewrite binarySearch_S, Hblob. fold s'. rewrite Hstop. reflexivity.
    + intro Hgo.
      assert (E : finished s' blob = false).
      { destruct (finished s' blob) eqn:E; [|reflexivity].
        apply search_done_iff in E. contradiction. }
      rewrite binarySearch_S, Hblob. fold s'. rewrite E. reflexivity.
  - intros minQ maxQ result calls Hrun.
    destruct (search_last_write fuel _ _ _ Hrun)
      as [Hlast|(Hnone & [Hbest|(_ & Hlast)])].
    + left. exact Hlast.
    + discriminate Hbest.
    + right. split; assumption.
Qed.

Lemma search_visits_invariant (minQ maxQ : number) (phase : Phase)
    (s : SearchState) :
  0 <= minQ -> minQ <= maxQ -> maxQ <= 1 ->
  search_visits target mime maxIter canvas (initial_search minQ maxQ) phase s ->
  0 <= low s /\ low s <= currentQuality s
  /\ currentQuality s <= high s /\ high s <= 1.
Proof.
  intros H0 Hlt H1 Hv.
  induction Hv as [|s blob Hv IH Hblob|s blob Hv IH Hblob Hgo].
  - cbn. lra.
  - unfold record_attempt. destruct (leb _ _); cbn; lra.
  - unfold bisect, record_attempt. destruct (leb _ _); cbn.
    + assert (E : (currentQuality s + high s) / 2
                  == (currentQuality s + high s) * (1 # 2)) by reflexivity.
      rewrite E. lra.
    + assert (E : (low s + currentQuality s) / 2
                  == (low s + currentQuality s) * (1 # 2)) by reflexivity.
      rewrite E. lra.
Qed.

(** The recursion of [binarySearch] goes through visited states only: from
    a visited state it either settles or calls itself on a visited state. *)
Lemma binarySearch_follows_visits (s0 s : SearchState) (fuel : nat) :
  search_visits target mime maxIter canvas s0 BeforeEncode s ->
  (exists outcome,
      search (S fuel) s
      = (outcome, [EvEncode canvas mime (currentQuality s)])
      /\ outcome <> OutOfFuel)
  \/ (exists s',
        search_visits target mime maxIter canvas s0 BeforeEncode s'
        /\ search (S fuel) s
           = (fst (search fuel s'),
              EvEncode canvas mime (currentQuality s) :: snd (search fuel s'))).
Proof.
  intro Hv. rewrite binarySearch_S.
  destruct (toBlob canvas mime (currentQuality s)) as [blob|] eqn:Hblob.
  - destruct (finished (recorded s blob) blob) eqn:Hdone.
    + left. eexists. split; [reflexivity|discriminate].
    + right. exists (bisect (recorded s blob)). split; [|reflexivity].
      apply visit_bisect; assumption.
  - left. eexists. split; [reflexivity|discriminate].
Qed.

(** C4.  With [0 <= minQuality < maxQuality <= 1], a search starts with
    [low = minQuality] and [high = currentQuality = maxQuality], and every
    state it goes through, before or after an encode, satisfies
    [0 <= low <= currentQuality <= high <= 1]. *)
Theorem search_bounds_invariant (minQ maxQ : number) (phase : Phase)
    (s : SearchState) :
  0 <= minQ -> minQ < maxQ -> maxQ <= 1 ->
  search_visits target mime maxIter canvas (initial_search minQ maxQ) phase s ->
  (low (initial_search minQ maxQ) = minQ
   /\ high (initial_search minQ maxQ) = maxQ
   /\ currentQuality (initial_search minQ maxQ) = maxQ)
  /\ 0 <= low s /\ low s <= currentQuality s
  /\ currentQuality s <= high s /\ high s <= 1.
Proof.
  intros H0 Hlt H1 Hv. split; [repeat split|].
  apply (search_visits_invariant minQ maxQ phase); try assumption. lra.
Qed.

Lemma qualities_tried_cons (q : number) (calls : list Event) :
  qualities_tried (EvEncode canvas mime q :: calls)
  = q :: qualities_tried calls.
Proof. reflexivity. Qed.

(** A search whose encodes all exceed the target only ever lowers [high]:
    from [low <= currentQuality] the qualities it tries never rise and never
    go below [low], and it returns the blob of the last one. *)
Lemma search_over_target_descends (fuel : nat) :
  forall (s : SearchState) (blob : Blob) (calls : list Event),
    bestBlob s = None -> low s <= currentQuality s ->
    search fuel s = (Resolved blob, calls) ->
    Forall (fun q => forall b, toBlob canvas mime q = Some b ->
                               target < size b / 1024)
           (qualities_tried calls) ->
    exists pre q,
      qualities_tried calls = pre ++ [q]
      /\ toBlob canvas mime q = Some blob
      /\ Forall (fun q' => q <= q') (qualities_tried calls)
      /\ low s <= q /\ q <= currentQuality s.
Proof.
  induction fuel as [|fuel IH]; intros s blob calls Hbest Hlow Hrun Hover.
  - discriminate Hrun.
  - rewrite binarySearch_S in Hrun.
    destruct (toBlob canvas mime (currentQuality s)) as [b|] eqn:Hb;
      [|discriminate Hrun].
    assert (Hrec : bestBlob (recorded s b) = None
                   /\ low (recorded s b) = low s
                   /\ high (recorded s b) = currentQuality s).
    { assert (Hgt : target < size b / 1024).
      { destruct (finished (recorded s b) b);
          injection Hrun as _ <-; rewrite qualities_tried_cons in Hover;
          inversion Hover as [|? ? Hhd _]; apply Hhd; exact Hb. }
      apply leb_gt in Hgt. unfold record_attempt. rewrite Hgt.
      cbn. auto. }
    destruct Hrec as (Hbest' & Hlow' & Hhigh').
    set (s1 := recorded s b) in *.
    destruct (finished s1 b).
    + assert (Hblob : best_or (bestBlob s1) b = blob) by congruence.
      assert (Hcalls : [EvEncode canvas mime (currentQuality s)] = calls)
        by congruence.
      subst calls. rewrite Hbest' in Hblob. cbn [best_or] in Hblob.
      subst blob. exists [], (currentQuality s).
      rewrite qualities_tried_cons.
      repeat split; try assumption.
      * repeat constructor. lra.
      * lra.
    + set (s2 := bisect s1) in *.
      assert (Hfst : fst (search fuel s2) = Resolved blob) by congruence.
      assert (Hcalls : EvEncode canvas mime (currentQuality s)
                       :: snd (search fuel s2) = calls) by congruence.
      subst calls.
      rewrite qualities_tried_cons in Hover |- *.
      inversion Hover as [|? ? _ Htl]; subst.
      assert (Ecur : currentQuality s2
                     == (low s + currentQuality s) * (1 # 2)).
      { subst s2. unfold bisect. cbn [currentQuality].
        rewrite Hlow', Hhigh'. reflexivity. }
      assert (Hl : low s2 = low s) by (subst s2; exact Hlow').
      destruct (IH s2 blob (snd (search fuel s2)))
        as (pre & q & Ht & Hq & Hmin & Hlq & Hqc).
      * subst s2. exact Hbest'.
      * rewrite Ecur, Hl. lra.
      * rewrite <- Hfst. apply surjective_pairing.
      * exact Htl.
      * exists (currentQuality s :: pre), q.
        rewrite Ecur in Hqc. rewrite Hl in Hlq.
        repeat split; try assumption.
        -- rewrite Ht. reflexivity.
        -- constructor; [lra | exact Hmin].
        -- lra.
Qed.

(** C6, as the code has it.  In a search with [minQuality <= maxQuality]
    whose encodes all exceed the target, the blob returned is the one
    encoded at the last quality tried, which is the least of the qualities
    tried and is at least [minQuality]. *)
Theorem search_over_target_returns_lowest (fuel : nat) (minQ maxQ : number)
    (blob : Blob) (calls : list Event) :
  minQ <= maxQ ->
  search fuel (initial_search minQ maxQ) = (Resolved blob, calls) ->
  Forall (fun q => forall b, toBlob canvas mime q = Some b ->
                             target < size b / 1024)
         (qualities_tried calls) ->
  exists pre q,
    qualities_tried calls = pre ++ [q]
    /\ toBlob canvas mime q = Some blob
    /\ Forall (fun q' => q <= q') (qualities_tried calls)
    /\ minQ <= q.
Proof.
  intros Hle Hrun Hover.
  destruct (search_over_target_descends fuel (initial_search minQ maxQ)
              blob calls eq_refl Hle Hrun Hover)
    as (pre & q & Ht & Hq & Hmin & Hlq & _).
  exists pre, q. repeat split; assumption.
Qed.
End Search.

(** C7.  Against the synthetic encoder ([size(q) = 1000 * q] KB), with target
    300 KB, bounds [0.1, 0.95], [maxIterations = 10] and the 5 KB tolerance,
    the search resolves after 7 encodes (at most 10), with the blob encoded at
    quality 0.29921875, of 299.21875 KB, within [295, 305] KB. *)
Theorem synthetic_search_converges (canvas : HTMLCanvasElement) (k : nat) :
  exists blob : number,
    fst (synthetic_search canvas (10 + k)) = Resolved blob
    /\ (List.length (snd (synthetic_search canvas (10 + k))) <= 10)%nat
    /\ 295 <= size blob / 1024 /\ size blob / 1024 <= 305
    /\ exists q, toBlob canvas "image/jpeg" q = Some blob
                 /\ last (qualities_tried (snd (synthetic_search canvas (10 + k)))) 0 = q
                 /\ q == 29921875 # 100000000.
Proof.
  unfold synthetic_search.
  eexists. split; [vm_compute; reflexivity|].
  split; [vm_compute; lia|].
  split; [vm_compute; intro E; discriminate E|].
  split; [vm_compute; intro E; discriminate E|].
  eexists. split; [|split; [vm_compute; reflexivity|vm_compute; reflexivity]].
  vm_compute. reflexivity.
Qed.

Lemma binarySearch_iteration_witness :
  toBlob synthetic_canvas "image/jpeg"
    (currentQuality (initial_search (1 # 10) (95 # 100)))
  = Some (1000 * (95 # 100) * 1024)
  /\ iteration (record_attempt 300 (initial_search (1 # 10) (95 # 100))
                  (1000 * (95 # 100) * 1024)) = 1%Z
  /\ high (record_attempt 300 (initial_search (1 # 10) (95 # 100))
             (1000 * (95 # 100) * 1024)) = 95 # 100.
Proof.
  assert (Hblob : toBlob synthetic_canvas "image/jpeg"
                    (currentQuality (initial_search (1 # 10) (95 # 100)))
                  = Some (1000 * (95 # 100) * 1024)) by reflexivity.
  split; [exact Hblob|].
  destruct (proj1 (@binarySearch_iteration synthetic 300 "image/jpeg" 10
                     synthetic_canvas 0 (initial_search (1 # 10) (95 # 100)))
              (1000 * (95 # 100) * 1024) Hblob) as (_ & Hover & Hiter & _).
  split; [exact Hiter|].
  apply Hover. intro Hle. vm_compute in Hle. apply Hle. reflexivity.
Defined.

Lemma search_bounds_invariant_witness :
  (0 <= 1 # 10 /\ 1 # 10 < 95 # 100 /\ 95 # 100 <= 1
   /\ search_visits 300 "image/jpeg" 10 synthetic_canvas
        (initial_search (1 # 10) (95 # 100)) BeforeEncode
        (bisect (record_attempt 300 (initial_search (1 # 10) (95 # 100))
                   (1000 * (95 # 100) * 1024))))
  /\ low (bisect (record_attempt 300 (initial_search (1 # 10) (95 # 100))
                    (1000 * (95 # 100) * 1024)))
     <= currentQuality
          (bisect (record_attempt 300 (initial_search (1 # 10) (95 # 100))
                     (1000 * (95 # 100) * 1024)))
  /\ currentQuality
       (bisect (record_attempt 300 (initial_search (1 # 10) (95 # 100))
                  (1000 * (95 # 100) * 1024)))
     <= high (bisect (record_attempt 300 (initial_search (1 # 10) (95 # 100))
                        (1000 * (95 # 100) * 1024))).
Proof.
  assert (H0 : 0 <= 1 # 10) by (intro E; discriminate E).
  assert (H1 : 1 # 10 < 95 # 100) by reflexivity.
  assert (H2 : 95 # 100 <= 1) by (intro E; discriminate E).
  assert (Hv : search_visits 300 "image/jpeg" 10 synthetic_canvas
                 (initial_search (1 # 10) (95 # 100)) BeforeEncode
                 (bisect (record_attempt 300
                            (initial_search (1 # 10) (95 # 100))
                            (1000 * (95 # 100) * 1024)))).
  { apply visit_bisect; [apply visit_start|reflexivity|reflexivity]. }
  split; [repeat split; assumption|].
  destruct (@search_bounds_invariant synthetic 300 "image/jpeg" 10 synthetic_canvas
              (1 # 10) (95 # 100) BeforeEncode _ H0 H1 H2 Hv)
    as (_ & _ & Hlc & Hch & _).
  split; assumption.
Defined.

Lemma search_over_target_returns_lowest_witness :
  (1 # 10 <= 95 # 100
   /\ starved_search synthetic_canvas 10
      = (Resolved (resolved_blob (starved_search synthetic_canvas 10)),
         snd (starved_search synthetic_canvas 10))
   /\ Forall (fun q => forall b, toBlob synthetic_canvas "image/jpeg" q = Some b ->
                                 50 < size b / 1024)
        (qualities_tried (snd (starved_search synthetic_canvas 10))))
  /\ exists pre q,
       qualities_tried (snd (starved_search synthetic_canvas 10)) = pre ++ [q]
       /\ toBlob synthetic_canvas "image/jpeg" q
          = Some (resolved_blob (starved_search synthetic_canvas 10))
       /\ Forall (fun q' => q <= q')
            (qualities_tried (snd (starved_search synthetic_canvas 10)))
       /\ 1 # 10 <= q.
Proof.
  assert (H1 : 1 # 10 <= 95 # 100) by (intro E; discriminate E).
  assert (H2 : starved_search synthetic_canvas 10
               = (Resolved (resolved_blob (starved_search synthetic_canvas 10)),
                  snd (starved_search synthetic_canvas 10)))
    by (vm_compute; reflexivity).
  assert (H3 : Forall (fun q => forall b,
                         toBlob synthetic_canvas "image/jpeg" q = Some b ->
                         50 < size b / 1024)
                 (qualities_tried (snd (starved_search synthetic_canvas 10)))).
  { vm_compute qualities_tried.
    repeat constructor; intros b E; injection E as <-; reflexivity. }
  split; [repeat split; assumption|].
  exact (@search_over_target_returns_lowest synthetic 50 "image/jpeg" 10
           synthetic_canvas 10 (1 # 10) (95 # 100) _ _ H1 H2 H3).
Defined.

(** C6 as stated fails on "strictly greater than [minQuality]".  With equal
    bounds (0.95, 0.95) every encode of the starved search is at
    [minQuality] itself, the returned one included.  With inverted bounds
    (0.9, 0.5) the qualities tried are 0.5, 0.7, 0.8, all below
    [minQuality], and the blob returned is the one of the greatest quality
    tried, 0.8, not of the least. *)
Lemma search_over_target_not_above_minQuality :
  (fst (equal_bounds_search synthetic_canvas 10)
   = Resolved (resolved_blob (equal_bounds_search synthetic_canvas 10))
   /\ List.length
        (qualities_tried (snd (equal_bounds_search synthetic_canvas 10)))
      = 10%nat
   /\ Forall (fun q => (forall b, toBlob synthetic_canvas "image/jpeg" q = Some b ->
                                  50 < size b / 1024)
                       /\ q == 95 # 100 /\ ~ 95 # 100 < q)
        (qualities_tried (snd (equal_bounds_search synthetic_canvas 10))))
  /\ (fst (inverted_bounds_search synthetic_canvas 3)
      = Resolved (resolved_blob (inverted_bounds_search synthetic_canvas 3))
      /\ map Qred
           (qualities_tried (snd (inverted_bounds_search synthetic_canvas 3)))
         = [1 # 2; 7 # 10; 4 # 5]%list
      /\ Forall (fun q => forall b,
                    toBlob synthetic_canvas "image/jpeg" q = Some b ->
                    50 < size b / 1024)
           (qualities_tried (snd (inverted_bounds_search synthetic_canvas 3)))
      /\ size (resolved_blob (inverted_bounds_search synthetic_canvas 3))
         == 1000 * (4 # 5) * 1024
      /\ ~ 9 # 10 < 4 # 5).
Proof.
  split.
  - split; [vm_compute; reflexivity|]. split; [vm_compute; reflexivity|].
    vm_compute qualities_tried.
    repeat constructor;
      try (intros b E; injection E as <-; reflexivity);
      intro E; discriminate E.
  - split; [vm_compute; reflexivity|]. split; [vm_compute; reflexivity|].
    split.
    + vm_compute qualities_tried.
      repeat constructor; intros b E; injection E as <-; reflexivity.
    + split; [vm_compute; reflexivity|]. intro E. discriminate E.
Qed.

(** ** The downscale retries: lines 140-189 *)

Section Attempt.
Context `{Browser}.
Variables (target : number) (mime : string).
Variables (maxW maxH : option number) (maxIter minQ maxQ : number).
Variable allow : bool.
Variable img : HTMLImageElement.

Local Abbreviation attempt :=
  (attemptCompression target mime maxW maxH maxIter minQ maxQ allow img).
Local Abbreviation search_on r :=
  (binarySearch target mime maxIter (drawImageToCanvas img maxW maxH r)).

(** One unfolding of the recursion. *)
Lemma attemptCompression_S (sf fuel : nat) (r : number) :
  attempt sf (S fuel) r =
  match fst (search_on r sf (initial_search minQ maxQ)) with
  | Resolved blob =>
      if retries target allow r blob
      then (fst (attempt sf fuel (r * scaleStep)),
            EvDraw img maxW maxH r
            :: snd (search_on r sf (initial_search minQ maxQ))
            ++ snd (attempt sf fuel (r * scaleStep)))
      else (Resolved blob,
            EvDraw img maxW maxH r
            :: snd (search_on r sf (initial_search minQ maxQ)))
  | Rejected e =>
      (Rejected e,
       EvDraw img maxW maxH r
       :: snd (search_on r sf (initial_search minQ maxQ)))
  | OutOfFuel =>
      (OutOfFuel,
       EvDraw img maxW maxH r
       :: snd (search_on r sf (initial_search minQ maxQ)))
  end.
Proof.
  cbn [attemptCompression]. unfold then_, draw, retries. cbn [fst snd app].
  destruct (fst (search_on r sf (initial_search minQ maxQ))) as [blob| |];
    try reflexivity.
  destruct (ltb (target + 5) (size blob / 1024) && allow && ltb (1 # 4) r);
    cbn [fst snd resolve]; [reflexivity|].
  rewrite app_nil_r. reflexivity.
Qed.

Lemma ratios_used_app (l1 l2 : list Event) :
  ratios_used (l1 ++ l2) = ratios_used l1 ++ ratios_used l2.
Proof. apply flat_map_app. Qed.

(** A quality search draws nothing. *)
Lemma binarySearch_draws_nothing (canvas : HTMLCanvasElement) (fuel : nat) :
  forall s, ratios_used (snd (binarySearch target mime maxIter canvas fuel s))
            = [].
Proof.
  induction fuel as [|fuel IH]; intro s; [reflexivity|].
  rewrite binarySearch_S.
  destruct (toBlob canvas mime (currentQuality s)) as [blob|];
    [|reflexivity].
  destruct (search_done _ _ _ _); [reflexivity|].
  cbn [snd]. change (ratios_used (?e :: ?l)) with (ratios_used l). apply IH.
Qed.

(** A quality search rejects only on a [null] blob. *)
Lemma binarySearch_rejection (canvas : HTMLCanvasElement) (fuel : nat) :
  forall s e,
    fst (binarySearch target mime maxIter canvas fuel s) = Rejected e ->
    e = TypeError.
Proof.
  induction fuel as [|fuel IH]; intros s e; [discriminate|].
  rewrite binarySearch_S.
  destruct (toBlob canvas mime (currentQuality s)) as [blob|].
  - destruct (search_done _ _ _ _); [discriminate|]. cbn [fst]. apply IH.
  - cbn [fst]. congruence.
Qed.

(** The search cannot run out of fuel once the counter covers the
    iterations that [maxIterations] still allows. *)
Lemma binarySearch_terminates (canvas : HTMLCanvasElement) (fuel : nat) :
  forall s,
    (1 <= fuel)%nat ->
    maxIter <= inject_Z (iteration s + Z.of_nat fuel) ->
    fst (binarySearch target mime maxIter canvas fuel s) <> OutOfFuel.
Proof.
  induction fuel as [|fuel IH]; intros s Hpos Hfuel; [lia|].
  rewrite binarySearch_S.
  destruct (toBlob canvas mime (currentQuality s)) as [blob|];
    [|discriminate].
  destruct (search_done target maxIter (record_attempt target s blob) blob)
    eqn:E; [discriminate|].
  cbn [fst].
  assert (Hit : iteration (bisect (record_attempt target s blob))
                = (iteration s + 1)%Z).
  { unfold bisect, record_attempt. destruct (leb _ _); reflexivity. }
  assert (Hnot : ~ maxIter <= inject_Z (iteration s + 1)).
  { intro Hle. unfold search_done in E. apply orb_false_iff in E as [E _].
    apply leb_gt in E.
    assert (Hi : iteration (record_attempt target s blob)
                 = (iteration s + 1)%Z)
      by (unfold record_attempt; destruct (leb _ _); reflexivity).
    rewrite Hi in E. lra. }
  assert (Hfuel' : (1 <= fuel)%nat).
  { destruct fuel as [|fuel']; [|lia]. exfalso. apply Hnot.
    replace (iteration s + 1)%Z with (iteration s + Z.of_nat 1)%Z by lia.
    exact Hfuel. }
  apply IH; [exact Hfuel'|].
  rewrite Hit.
  replace (iteration s + 1 + Z.of_nat fuel)%Z
    with (iteration s + Z.of_nat (S fuel))%Z by lia.
  exact Hfuel.
Qed.

(** The draws of an attempt: its own, then the ones of the retry, which is
    only launched from a ratio above 0.25. *)
Lemma attempt_ratios (sf fuel : nat) (r : number) :
  ratios_used (snd (attempt sf (S fuel) r)) = [r]
  \/ (1 # 4 < r
      /\ ratios_used (snd (attempt sf (S fuel) r))
         = r :: ratios_used (snd (attempt sf fuel (r * scaleStep)))).
Proof.
  rewrite attemptCompression_S.
  pose proof (binarySearch_draws_nothing (drawImageToCanvas img maxW maxH r)
                sf (initial_search minQ maxQ)) as Hnone.
  destruct (fst (search_on r sf (initial_search minQ maxQ))) as [blob| |].
  - destruct (retries target allow r blob) eqn:E.
    + right. unfold retries in E.
      apply andb_true_iff in E as [_ E]. apply ltb_lt in E.
      split; [exact E|].
      cbn [snd]. change (ratios_used (EvDraw ?i ?a ?b ?x :: ?l))
        with (x :: ratios_used l).
      rewrite ratios_used_app, Hnone. reflexivity.
    + left. cbn [snd]. change (ratios_used (EvDraw ?i ?a ?b ?x :: ?l))
        with (x :: ratios_used l).
      rewrite Hnone. reflexivity.
  - left. cbn [snd]. change (ratios_used (EvDraw ?i ?a ?b ?x :: ?l))
      with (x :: ratios_used l).
    rewrite Hnone. reflexivity.
  - left. cbn [snd]. change (ratios_used (EvDraw ?i ?a ?b ?x :: ?l))
      with (x :: ratios_used l).
    rewrite Hnone. reflexivity.
Qed.

Lemma attempt_ratios_bounds (sf fuel : nat) :
  forall r,
    StronglySorted (fun a b => b < a) (ratios_used (snd (attempt sf fuel r)))
    /\ Forall (fun x => x <= r) (ratios_used (snd (attempt sf fuel r)))
    /\ Forall (fun x => x == r \/ 9 # 40 < x)
         (ratios_used (snd (attempt sf fuel r)))
    /\ Forall (fun x => 1 # 4 < x)
         (removelast (ratios_used (snd (attempt sf fuel r))))
    /\ forall k, shrunk k r <= 1 # 4 ->
                 (List.length (ratios_used (snd (attempt sf fuel r)))
                  <= S k)%nat.
Proof.
  induction fuel as [|fuel IH]; intro r.
  - cbn. repeat split; try constructor. intros; lia.
  - destruct (attempt_ratios sf fuel r) as [E|[Hr E]]; rewrite E.
    + split; [repeat constructor|].
      split; [repeat constructor; lra|].
      split; [repeat constructor; left; reflexivity|].
      split; [constructor|].
      intros k _. cbn. lia.
    + destruct (IH (r * scaleStep)) as (Hs & Hle & Hfloor & Hlaunch & Hlen).
      assert (Hstep : r * scaleStep < r) by (unfold scaleStep; lra).
      repeat split.
      * constructor; [exact Hs|].
        eapply Forall_impl; [|exact Hle]. cbn. intros x Hx. lra.
      * constructor; [lra|].
        eapply Forall_impl; [|exact Hle]. cbn. intros x Hx. lra.
      * constructor; [left; reflexivity|].
        eapply Forall_impl; [|exact Hfloor]. cbn.
        unfold scaleStep. intros x [Hx|Hx]; right; lra.
      * destruct (ratios_used (snd (attempt sf fuel (r * scaleStep))))
          as [|x tl]; [constructor|].
        change (removelast (r :: x :: tl)) with (r :: removelast (x :: tl)).
        constructor; assumption.
      * intros [|k] Hk; cbn [shrunk] in Hk; [lra|].
        cbn [List.length]. apply le_n_S. apply Hlen. exact Hk.
Qed.

Lemma attempt_rejection (sf fuel : nat) :
  forall r e, fst (attempt sf fuel r) = Rejected e -> e = TypeError.
Proof.
  induction fuel as [|fuel IH]; intros r e; [discriminate|].
  rewrite attemptCompression_S.
  destruct (fst (search_on r sf (initial_search minQ maxQ)))
    as [blob|e'|] eqn:E.
  - destruct (retries target allow r blob); [|discriminate].
    cbn [fst]. apply IH.
  - cbn [fst]. intros [= <-].
    apply (binarySearch_rejection _ _ _ _ E).
  - discriminate.
Qed.

(** The retries cannot run out of fuel once the counter covers the
    iterations of a search and the [k + 1] attempts that lead below the
    floor. *)
Lemma attempt_terminates (sf : nat) (k : nat) :
  (1 <= sf)%nat -> maxIter <= inject_Z (Z.of_nat sf) ->
  forall fuel r,
    shrunk k r <= 1 # 4 -> (k < fuel)%nat ->
    fst (attempt sf fuel r) <> OutOfFuel.
Proof.
  intros Hsf Hiter.
  induction k as [|k IH]; intros fuel r Hk Hfuel;
    (destruct fuel as [|fuel]; [lia|]);
    rewrite attemptCompression_S;
    pose proof (binarySearch_terminates
                  (drawImageToCanvas img maxW maxH r) sf
                  (initial_search minQ maxQ) Hsf Hiter) as Hsearch;
    destruct (fst (search_on r sf (initial_search minQ maxQ)))
      as [blob| |]; try discriminate; try congruence.
  - destruct (retries target allow r blob) eqn:E; [|discriminate].
    unfold retries in E. apply andb_true_iff in E as [_ E].
    apply ltb_lt in E. cbn in Hk. lra.
  - destruct (retries target allow r blob); [|discriminate].
    cbn [fst]. apply IH; [exact Hk|lia].
Qed.
End Attempt.

(** ** The entry point: lines 118-194 *)

Section Compress.
Context `{Browser}.

Local Abbreviation attempts_of fuel o t img :=
  (attemptCompression t (or_string (mimeType o) "image/jpeg")
     (or_null (maxWidth o)) (or_null (maxHeight o))
     (or_number (maxIterations o) 10)
     (or_number (minQuality o) (1 # 10))
     (or_number (maxQuality o) (95 # 100))
     (match allowScaleDown o with Some false => false | _ => true end)
     img fuel fuel 1).

(** The three ways a call goes: rejected at line 123, rejected by the
    decode, or handed over to [attemptCompression]. *)
Lemma compressImageToTarget_cases (fuel : nat) (file : File)
    (options : option Options) :
  (truthy (requested_target options) = false
   /\ compressImageToTarget fuel file options
      = (Rejected TargetSizeRequired, []))
  \/ (truthy (requested_target options) = true
      /\ decode file = None
      /\ compressImageToTarget fuel file options
         = (Rejected LoadError, [EvLoad file]))
  \/ (exists o t img,
        options = Some o /\ targetSizeKB o = Some t
        /\ truthy (Some t) = true /\ decode file = Some img
        /\ compressImageToTarget fuel file options
           = (fst (attempts_of fuel o t img),
              EvLoad file :: snd (attempts_of fuel o t img))).
Proof.
  unfold compressImageToTarget, requested_target.
  destruct options as [o|]; [|left; split; reflexivity].
  destruct (targetSizeKB o) as [t|] eqn:Et; [|left; split; reflexivity].
  destruct (truthy (Some t)) eqn:Etr; cbn [negb];
    [|left; split; reflexivity].
  right. unfold then_, loadImageFromFile. cbn [fst snd].
  destruct (decode file) as [img|] eqn:Ed.
  - right. exists o, t, img. repeat split; try assumption.
  - left. repeat split.
Qed.

Lemma ratios_used_load (file : File) (calls : list Event) :
  ratios_used (EvLoad file :: calls) = ratios_used calls.
Proof. reflexivity. Qed.

Lemma shrunk_14 : shrunk 14 1 <= 1 # 4 /\ 1 # 4 < shrunk 13 1.
Proof. split; vm_compute; [intro E; discriminate E|reflexivity]. Qed.

(** C3, as the code has it.  The ratios drawn at during a call are strictly
    decreasing and at most 1; every ratio a retry is launched from (all but
    the last one drawn at) is above the floor 0.25, so that every ratio
    drawn at is above 0.25 * 0.9 = 0.225; there are at most 15 attempts,
    one more than the least [n] with [0.9 ^ n <= 0.25], which is 14; and a
    counter of [enough_fuel] is never exhausted: the call terminates. *)
Theorem downscale_ratios_decrease (fuel : nat) (file : File)
    (options : option Options) :
  let run := compressImageToTarget fuel file options in
  StronglySorted (fun a b => b < a) (ratios_used (snd run))
  /\ Forall (fun r => 9 # 40 < r /\ r <= 1) (ratios_used (snd run))
  /\ Forall (fun r => 1 # 4 < r) (removelast (ratios_used (snd run)))
  /\ (List.length (ratios_used (snd run)) <= 15)%nat
  /\ (shrunk 14 1 <= 1 # 4 /\ 1 # 4 < shrunk 13 1)
  /\ ((enough_fuel options <= fuel)%nat -> fst run <> OutOfFuel).
Proof.
  intro run. subst run.
  destruct (compressImageToTarget_cases fuel file options)
    as [[_ E]|[(_ & _ & E)|(o & t & img & Eo & Et & Etr & Ed & E)]];
    rewrite E; cbn [fst snd].
  - repeat split; try constructor; try apply shrunk_14; try discriminate.
    cbn. lia.
  - repeat split; try constructor; try apply shrunk_14; try discriminate.
    cbn. lia.
  - rewrite ratios_used_load.
    destruct (attempt_ratios_bounds t (or_string (mimeType o) "image/jpeg")
                (or_null (maxWidth o)) (or_null (maxHeight o))
                (or_number (maxIterations o) 10)
                (or_number (minQuality o) (1 # 10))
                (or_number (maxQuality o) (95 # 100))
                (match allowScaleDown o with Some false => false | _ => true end)
                img fuel fuel 1)
      as (Hs & Hle & Hfloor & Hlaunch & Hlen).
    split; [exact Hs|].
    split.
    { apply Forall_forall. intros x Hx. split.
      - rewrite Forall_forall in Hfloor.
        destruct (Hfloor x Hx) as [Ex|Hgt]; [rewrite Ex; reflexivity|exact Hgt].
      - rewrite Forall_forall in Hle. apply Hle. exact Hx. }
    split; [exact Hlaunch|].
    split; [apply (Hlen 14%nat), shrunk_14|].
    split; [apply shrunk_14|].
    intro Hfuel. subst options. unfold enough_fuel in Hfuel.
    apply (attempt_terminates _ _ _ _ _ _ _ _ _ fuel 14%nat).
    + lia.
    + apply Qle_trans with (inject_Z (Qceiling (or_number (maxIterations o) 10)));
        [apply Qle_ceiling|].
      rewrite <- Zle_Qle. lia.
    + apply shrunk_14.
    + lia.
Qed.

(** C1, as the code has it.  A call whose [targetSizeKB] is missing or 0 is
    rejected with the error of line 123 before any decode, draw or encode.
    A negative [targetSizeKB] passes the test of line 122: the file is
    decoded, and whatever the call ends with is not that error. *)
Theorem target_size_required (fuel : nat) (file : File)
    (options : option Options) :
  ((forall t, requested_target options = Some t -> t == 0) ->
   compressImageToTarget fuel file options
   = (Rejected TargetSizeRequired, []))
  /\ (forall t, requested_target options = Some t -> t < 0 ->
      exists outcome calls,
        compressImageToTarget fuel file options
        = (outcome, EvLoad file :: calls)
        /\ outcome <> Rejected TargetSizeRequired).
Proof.
  split.
  - intro Hzero.
    destruct (compressImageToTarget_cases fuel file options)
      as [[_ E]|[(Ht & _)|(o & t & img & -> & Et & Etr & _)]];
      [exact E| |].
    + destruct (requested_target options) as [t|]; [|discriminate Ht].
      apply truthy_nonzero in Ht. exfalso. apply Ht, Hzero. reflexivity.
    + apply truthy_nonzero in Etr. exfalso. apply Etr, Hzero. exact Et.
  - intros t Ht Hneg.
    assert (Htr : truthy (requested_target options) = true).
    { rewrite Ht. apply truthy_nonzero. intro E. rewrite E in Hneg. lra. }
    destruct (compressImageToTarget_cases fuel file options)
      as [[Hf _]|[(_ & _ & E)|(o & t' & img & _ & _ & _ & _ & E)]].
    + congruence.
    + exists (Rejected LoadError), []. split; [exact E|discriminate].
    + eexists _, _. split; [exact E|].
      intro Hrej. apply attempt_rejection in Hrej. discriminate Hrej.
Qed.

(** C9.  A falsy [minQuality], [maxIterations], [maxWidth] or [maxHeight]
    is the same as an omitted one: the call issues the same host calls and
    settles the same way, which for [minQuality] is the way of the default
    0.1 and for [maxIterations] of the default 10.  The other two options
    read with [||], [maxQuality] and [mimeType], behave alike. *)
Theorem falsy_option_is_omitted (fuel : nat) (file : File) (o : Options) :
  (compressImageToTarget fuel file (Some (with_minQuality (Some 0) o))
   = compressImageToTarget fuel file (Some (with_minQuality None o))
   /\ compressImageToTarget fuel file (Some (with_minQuality (Some 0) o))
      = compressImageToTarget fuel file
          (Some (with_minQuality (Some (1 # 10)) o)))
  /\ (compressImageToTarget fuel file (Some (with_maxIterations (Some 0) o))
      = compressImageToTarget fuel file (Some (with_maxIterations None o))
      /\ compressImageToTarget fuel file
           (Some (with_maxIterations (Some 0) o))
         = compressImageToTarget fuel file
             (Some (with_maxIterations (Some 10) o)))
  /\ compressImageToTarget fuel file (Some (with_maxWidth (Some 0) o))
     = compressImageToTarget fuel file (Some (with_maxWidth None o))
  /\ compressImageToTarget fuel file (Some (with_maxHeight (Some 0) o))
     = compressImageToTarget fuel file (Some (with_maxHeight None o))
  /\ compressImageToTarget fuel file (Some (with_maxQuality (Some 0) o))
     = compressImageToTarget fuel file (Some (with_maxQuality None o))
  /\ compressImageToTarget fuel file (Some (with_mimeType (Some EmptyString) o))
     = compressImageToTarget fuel file (Some (with_mimeType None o)).
Proof.
  unfold compressImageToTarget.
  cbn [targetSizeKB mimeType maxWidth maxHeight maxIterations minQuality
       maxQuality allowScaleDown with_minQuality with_maxIterations
       with_maxWidth with_maxHeight with_maxQuality with_mimeType].
  destruct (targetSizeKB o) as [t|]; [|repeat split].
  destruct (negb (truthy (Some t))); repeat split.
Qed.
End Compress.

Lemma target_size_required_witness :
  (forall t, requested_target (Some (options_for 0)) = Some t -> t == 0)
  /\ zero_run = (Rejected TargetSizeRequired, []).
Proof.
  assert (Hz : forall t, requested_target (Some (options_for 0)) = Some t ->
                         t == 0)
    by (intros t [= <-]; reflexivity).
  split; [exact Hz|].
  exact (proj1 (@target_size_required synthetic 20 tt (Some (options_for 0)))
           Hz).
Defined.

(** C1 as stated fails for a negative target: with [targetSizeKB = -1] the
    call decodes the file, makes 166 host calls in all and resolves. *)
Lemma negative_target_not_rejected :
  -1 < 0
  /\ requested_target (Some (options_for (-1))) = Some (-1)
  /\ (exists blob, fst negative_run = Resolved blob)
  /\ hd_error (snd negative_run) = Some (EvLoad tt)
  /\ List.length (snd negative_run) = 166%nat.
Proof.
  split; [reflexivity|]. split; [reflexivity|].
  split; [eexists; vm_compute; reflexivity|].
  split; vm_compute; reflexivity.
Qed.

Lemma downscale_ratios_decrease_witness :
  (enough_fuel (Some (options_for 1%Q)) <= 20)%nat
  /\ fst unreachable_run <> OutOfFuel.
Proof.
  assert (Hfuel : (enough_fuel (Some (options_for 1%Q)) <= 20)%nat)
    by (vm_compute; lia).
  split; [exact Hfuel|].
  destruct (@downscale_ratios_decrease synthetic 20 tt (Some (options_for 1)))
    as (_ & _ & _ & _ & _ & Hterm).
  exact (Hterm Hfuel).
Defined.

(** C3 as stated fails on both bounds: when no attempt reaches a target of
    1 KB, the 15th attempt draws at [0.9 ^ 14 = 0.22876792454961], below the
    floor 0.25, and 15 exceeds the 14 of the claim. *)
Lemma downscale_below_floor :
  (exists blob, fst unreachable_run = Resolved blob)
  /\ List.length (ratios_used (snd unreachable_run)) = 15%nat
  /\ ~ (List.length (ratios_used (snd unreachable_run)) <= 14)%nat
  /\ nth 14 (ratios_used (snd unreachable_run)) 0
     == 22876792454961 # 100000000000000
  /\ ~ Forall (fun r => 1 # 4 <= r) (ratios_used (snd unreachable_run)).
Proof.
  split; [eexists; vm_compute; reflexivity|].
  split; [vm_compute; reflexivity|].
  split; [vm_compute; lia|].
  split; [vm_compute; reflexivity|].
  intro Hall. rewrite Forall_forall in Hall.
  assert (Hin : In (nth 14 (ratios_used (snd unreachable_run)) 0)
                  (ratios_used (snd unreachable_run))).
  { apply nth_In. vm_compute. lia. }
  apply Hall in Hin. vm_compute in Hin. apply Hin. reflexivity.
Qed.

(** ** A search that cannot reach the target *)

Section Starved.
Context `{Browser}.
Variables (target : number) (mime : string) (maxIter : number).
Variable canvas : HTMLCanvasElement.
Variable minQ : number.

Hypothesis encodes : forall q, toBlob canvas mime q <> None.
Hypothesis over_target :
  forall q b, minQ <= q -> toBlob canvas mime q = Some b ->
              target + 5 < size b / 1024.

Lemma halfway_between (q : number) :
  minQ <= q -> minQ <= (minQ + q) / 2 /\ (minQ + q) / 2 <= q.
Proof.
  intro Hq. change ((minQ + q) / 2) with ((minQ + q) * (1 # 2)). lra.
Qed.

Lemma descend_bounds (m : nat) :
  forall q, minQ <= q -> minQ <= descend minQ m q /\ descend minQ m q <= q.
Proof.
  induction m as [|m IH]; intros q Hq; cbn [descend]; [lra|].
  destruct (halfway_between q Hq) as [Hlo Hhi].
  destruct (IH _ Hlo) as [Hlo' Hhi']. lra.
Qed.

Lemma descend_is_least (m : nat) :
  forall q, minQ <= q ->
            Forall (fun x => descend minQ m q <= x) (descent minQ m q).
Proof.
  induction m as [|m IH]; intros q Hq; cbn [descend descent].
  - repeat constructor. lra.
  - destruct (halfway_between q Hq) as [Hlo Hhi].
    constructor; [|apply IH; exact Hlo].
    destruct (descend_bounds m _ Hlo) as [_ Hle]. lra.
Qed.

Lemma descent_last (m : nat) :
  forall q d, last (descent minQ m q) d = descend minQ m q.
Proof.
  induction m as [|m IH]; intros q d; [reflexivity|].
  cbn [descend]. rewrite <- (IH ((minQ + q) / 2) d).
  change (descent minQ (S m) q)
    with (q :: descent minQ m ((minQ + q) / 2)).
  destruct m; reflexivity.
Qed.

Lemma descent_length (m : nat) :
  forall q, List.length (descent minQ m q) = S m.
Proof.
  induction m as [|m IH]; intro q; [reflexivity|].
  cbn [descent List.length]. rewrite IH. reflexivity.
Qed.

(** With [m + 1] iterations left, the search encodes at the [m + 1]
    qualities of the descent and resolves with the blob of the last. *)
Lemma binarySearch_starved (m : nat) :
  forall fuel s,
    bestBlob s = None -> low s = minQ -> minQ <= currentQuality s ->
    (m < fuel)%nat ->
    maxIter <= inject_Z (iteration s + 1 + Z.of_nat m) ->
    ((0 < m)%nat -> inject_Z (iteration s + Z.of_nat m) < maxIter) ->
    exists blob,
      toBlob canvas mime (descend minQ m (currentQuality s)) = Some blob
      /\ binarySearch target mime maxIter canvas fuel s
         = (Resolved blob,
            map (EvEncode canvas mime) (descent minQ m (currentQuality s))).
Proof.
  induction m as [|m IH]; intros fuel s Hbest Hlow Hcur Hfuel Hlast Hmore;
    (destruct fuel as [|fuel]; [lia|]);
    rewrite binarySearch_S;
    (destruct (toBlob canvas mime (currentQuality s)) as [b|] eqn:Hb;
     [|exfalso; apply (encodes _ Hb)]);
    pose proof (over_target _ _ Hcur Hb) as Hover;
    assert (Hrec : record_attempt target s b
                   = {| low := minQ; high := currentQuality s;
                        currentQuality := currentQuality s;
                        iteration := iteration s + 1; bestBlob := None |})
      by (unfold record_attempt;
          assert (El : leb (size b / 1024) target = false)
            by (apply leb_gt; lra);
          rewrite El; cbn; rewrite Hbest, Hlow; reflexivity);
    rewrite Hrec.
  - assert (Hdone : search_done target maxIter
                      {| low := minQ; high := currentQuality s;
                         currentQuality := currentQuality s;
                         iteration := iteration s + 1; bestBlob := None |} b
                    = true).
    { unfold search_done. cbn [iteration]. apply orb_true_iff. left.
      apply leb_le. rewrite Z.add_0_r in Hlast. exact Hlast. }
    rewrite Hdone. exists b. split; [exact Hb|reflexivity].
  - assert (Hgo : search_done target maxIter
                    {| low := minQ; high := currentQuality s;
                       currentQuality := currentQuality s;
                       iteration := iteration s + 1; bestBlob := None |} b
                  = false).
    { unfold search_done. cbn [iteration]. apply orb_false_iff. split.
      - apply leb_gt. apply Qle_lt_trans
          with (inject_Z (iteration s + Z.of_nat (S m))); [|apply Hmore; lia].
        rewrite <- Zle_Qle. lia.
      - apply leb_gt. unfold Math_abs.
        apply Qlt_le_trans with (size b / 1024 - target); [lra|].
        apply Qle_Qabs. }
    rewrite Hgo. unfold bisect. cbn [low high currentQuality iteration bestBlob].
    destruct (IH fuel
                {| low := minQ; high := currentQuality s;
                   currentQuality := (minQ + currentQuality s) / 2;
                   iteration := iteration s + 1; bestBlob := None |})
      as (blob & Hblob & Hrun); cbn [low currentQuality iteration bestBlob];
      try reflexivity.
    + apply halfway_between. exact Hcur.
    + lia.
    + replace (iteration s + 1 + 1 + Z.of_nat m)%Z
        with (iteration s + 1 + Z.of_nat (S m))%Z by lia.
      exact Hlast.
    + intro Hm.
      replace (iteration s + 1 + Z.of_nat m)%Z
        with (iteration s + Z.of_nat (S m))%Z by lia.
      apply Hmore. lia.
    + exists blob. split; [exact Hblob|].
      rewrite Hrun. reflexivity.
Qed.
End Starved.

Section NoScaleDown.
Context `{Browser}.

Lemma iterations_allowed_spec (maxIter : number) :
  let n := iterations_allowed maxIter in
  (1 <= n)%nat
  /\ maxIter <= inject_Z (Z.of_nat n)
  /\ ((1 < n)%nat -> inject_Z (Z.of_nat (n - 1)) < maxIter).
Proof.
  unfold iterations_allowed. cbn zeta.
  pose proof (Qle_ceiling maxIter) as Hc.
  pose proof (Qceiling_lt maxIter) as Hl.
  split; [lia|]. split.
  - apply Qle_trans with (inject_Z (Qceiling maxIter)); [exact Hc|].
    rewrite <- Zle_Qle. lia.
  - intro Hn.
    replace (Z.of_nat (Z.to_nat (Z.max 1 (Qceiling maxIter)) - 1))
      with (Qceiling maxIter - 1)%Z by lia.
    exact Hl.
Qed.

(** C5, as the code has it.  With [allowScaleDown = false], a decodable
    file, effective bounds [minQuality <= maxQuality], an encoder that is
    monotone in the quality and whose blob at [minQuality] still exceeds the
    target by more than the tolerance, the call draws once, at ratio 1, runs
    one search of [n] encodes ([n] the iterations that [maxIterations]
    allows) and resolves with the blob of the last quality tried, which is
    the least of the qualities tried and is at least [minQuality]. *)
Theorem no_scale_down_returns_lowest_tried (fuel : nat) (file : File)
    (o : Options) (t : number) (img : HTMLImageElement) :
  let mime := or_string (mimeType o) "image/jpeg" in
  let maxW := or_null (maxWidth o) in
  let maxH := or_null (maxHeight o) in
  let canvas := drawImageToCanvas img maxW maxH 1 in
  let minQ := or_number (minQuality o) (1 # 10) in
  let maxQ := or_number (maxQuality o) (95 # 100) in
  let n := iterations_allowed (or_number (maxIterations o) 10) in
  targetSizeKB o = Some t -> ~ t == 0 ->
  allowScaleDown o = Some false ->
  decode file = Some img ->
  minQ <= maxQ ->
  (forall q, toBlob canvas mime q <> None) ->
  (forall q1 q2 b1 b2,
      q1 <= q2 -> toBlob canvas mime q1 = Some b1 ->
      toBlob canvas mime q2 = Some b2 -> size b1 <= size b2) ->
  (forall b, toBlob canvas mime minQ = Some b -> t + 5 < size b / 1024) ->
  (n <= fuel)%nat ->
  exists blob qs,
    compressImageToTarget fuel file (Some o)
    = (Resolved blob,
       EvLoad file :: EvDraw img maxW maxH 1
       :: map (EvEncode canvas mime) qs)
    /\ List.length qs = n
    /\ toBlob canvas mime (last qs maxQ) = Some blob
    /\ Forall (fun q => last qs maxQ <= q) qs
    /\ minQ <= last qs maxQ.
Proof.
  intros mime maxW maxH canvas minQ maxQ n Ht Hnz Hallow Hdecode Hle
         Htotal Hmono Hfloor Hfuel.
  assert (Hover : forall q b, minQ <= q -> toBlob canvas mime q = Some b ->
                              t + 5 < size b / 1024).
  { intros q b Hq Hb.
    destruct (toBlob canvas mime minQ) as [b0|] eqn:Hb0;
      [|exfalso; apply (Htotal _ Hb0)].
    pose proof (Hfloor b0 eq_refl) as H0.
    assert (Hsz : size b0 <= size b)
      by (apply (Hmono minQ q b0 b); [exact Hq|exact Hb0|exact Hb]).
    change (size b0 / 1024) with (size b0 * (1 # 1024)) in H0.
    change (size b / 1024) with (size b * (1 # 1024)). lra. }
  destruct (iterations_allowed_spec (or_number (maxIterations o) 10))
    as (Hn1 & Hn2 & Hn3). fold n in Hn1, Hn2, Hn3.
  destruct (compressImageToTarget_cases fuel file (Some o))
    as [[Hf _]|[(_ & Hd & _)|(o' & t' & img' & Eo & Et & _ & Ed & E)]].
  - cbn [requested_target] in Hf. rewrite Ht in Hf.
    apply truthy_nonzero in Hnz. congruence.
  - congruence.
  - injection Eo as <-. rewrite Ht in Et. injection Et as <-.
    rewrite Hdecode in Ed. injection Ed as <-.
    rewrite E, Hallow. clear E.
    destruct fuel as [|fuel']; [lia|].
    rewrite attemptCompression_S.
    fold mime maxW maxH canvas minQ maxQ.
    destruct (binarySearch_starved t mime (or_number (maxIterations o) 10)
                canvas minQ Htotal Hover (n - 1) (S fuel')
                (initial_search minQ maxQ))
      as (blob & Hblob & Hrun); try reflexivity.
    + exact Hle.
    + lia.
    + cbn [iteration initial_search].
      replace (0 + 1 + Z.of_nat (n - 1))%Z with (Z.of_nat n) by lia.
      exact Hn2.
    + intro Hm. cbn [iteration initial_search]. rewrite Z.add_0_l.
      apply Hn3. lia.
    + cbn [currentQuality initial_search] in Hblob, Hrun.
      exists blob, (descent minQ (n - 1) maxQ). rewrite Hrun. cbn [fst snd].
      unfold retries. rewrite andb_false_r. cbn [andb].
      rewrite descent_last, descent_length.
      repeat split.
      * lia.
      * exact Hblob.
      * apply descend_is_least. exact Hle.
      * apply (descend_bounds minQ (n - 1) maxQ Hle).
Qed.
End NoScaleDown.

Lemma no_scale_down_returns_lowest_tried_witness :
  (targetSizeKB (with_allowScaleDown (Some false) (options_for 50)) = Some 50
   /\ ~ 50 == 0
   /\ allowScaleDown (with_allowScaleDown (Some false) (options_for 50))
      = Some false
   /\ decode tt = Some synthetic_image
   /\ 1 # 10 <= 95 # 100
   /\ (forall q, toBlob synthetic_canvas "image/jpeg" q <> None)
   /\ (forall q1 q2 b1 b2,
          q1 <= q2 -> toBlob synthetic_canvas "image/jpeg" q1 = Some b1 ->
          toBlob synthetic_canvas "image/jpeg" q2 = Some b2 ->
          size b1 <= size b2)
   /\ (forall b, toBlob synthetic_canvas "image/jpeg" (1 # 10) = Some b ->
                 50 + 5 < size b / 1024)
   /\ (iterations_allowed 10%Q <= 20)%nat)
  /\ exists blob qs,
       fixed_size_run
       = (Resolved blob,
          EvLoad tt :: EvDraw synthetic_image None None 1
          :: map (EvEncode synthetic_canvas "image/jpeg") qs)
       /\ List.length qs = iterations_allowed 10%Q
       /\ toBlob synthetic_canvas "image/jpeg" (last qs (95 # 100)) = Some blob
       /\ Forall (fun q => last qs (95 # 100) <= q) qs
       /\ 1 # 10 <= last qs (95 # 100).
Proof.
  assert (H1 : targetSizeKB (with_allowScaleDown (Some false) (options_for 50))
               = Some 50) by reflexivity.
  assert (H2 : ~ 50 == 0) by (intro E; discriminate E).
  assert (H3 : allowScaleDown
                 (with_allowScaleDown (Some false) (options_for 50))
               = Some false) by reflexivity.
  assert (H4 : decode tt = Some synthetic_image) by reflexivity.
  assert (H5 : 1 # 10 <= 95 # 100) by (intro E; discriminate E).
  assert (H6 : forall q, toBlob synthetic_canvas "image/jpeg" q <> None)
    by (intros q E; discriminate E).
  assert (H7 : forall q1 q2 b1 b2,
             q1 <= q2 -> toBlob synthetic_canvas "image/jpeg" q1 = Some b1 ->
             toBlob synthetic_canvas "image/jpeg" q2 = Some b2 ->
             size b1 <= size b2).
  { intros q1 q2 b1 b2 Hq E1 E2. injection E1 as <-. injection E2 as <-.
    cbn [size synthetic]. lra. }
  assert (H8 : forall b, toBlob synthetic_canvas "image/jpeg" (1 # 10) = Some b ->
                         50 + 5 < size b / 1024)
    by (intros b E; injection E as <-; reflexivity).
  assert (H9 : (iterations_allowed 10%Q <= 20)%nat) by (vm_compute; lia).
  split; [repeat split; assumption|].
  exact (@no_scale_down_returns_lowest_tried synthetic 20 tt
           (with_allowScaleDown (Some false) (options_for 50)) 50
           synthetic_image H1 H2 H3 H4 H5 H6 H7 H8 H9).
Defined.

(** C5 as stated fails on which blob is returned: against the synthetic
    encoder and a target of 50 KB, the blob at [minQuality = 0.1] weighs
    100 KB, above 55 KB, and the call, which draws once, resolves with the
    blob encoded at [0.1 + 0.85 / 512], of about 101.66 KB. *)
Lemma no_scale_down_not_minimum_quality :
  allowScaleDown (with_allowScaleDown (Some false) (options_for 50)) = Some false
  /\ toBlob synthetic_canvas "image/jpeg" (1 # 10) = Some (1000 * (1 # 10) * 1024)
  /\ 50 + 5 < size (1000 * (1 # 10) * 1024) / 1024
  /\ ratios_used (snd fixed_size_run) = [1]
  /\ exists blob,
       fst fixed_size_run = Resolved blob
       /\ size blob == 1000 * ((1 # 10) + (85 # 100) / 512) * 1024
       /\ size blob / 1024 == 26025 # 256
       /\ ~ blob == 1000 * (1 # 10) * 1024.
Proof.
  split; [reflexivity|]. split; [reflexivity|]. split; [reflexivity|].
  split; [vm_compute; reflexivity|].
  eexists. split; [vm_compute; reflexivity|].
  split; [vm_compute; reflexivity|].
  split; [vm_compute; reflexivity|].
  vm_compute. intro E. discriminate E.
Qed.


(** * Further properties of the search *)

Section SearchRuns.
Context `{Browser}.
Variables (target : number) (mime : string) (maxIter : number).
Variable canvas : HTMLCanvasElement.

Local Abbreviation search := (binarySearch target mime maxIter canvas).
Local Abbreviation recorded := (record_attempt target).
Local Abbreviation finished := (search_done target maxIter).

Lemma recorded_fields (s : SearchState) (blob : Blob) :
  iteration (recorded s blob) = (iteration s + 1)%Z
  /\ currentQuality (recorded s blob) = currentQuality s
  /\ (size blob / 1024 <= target ->
      low (recorded s blob) = currentQuality s
      /\ high (recorded s blob) = high s
      /\ bestBlob (recorded s blob) = Some blob)
  /\ (target < size blob / 1024 ->
      low (recorded s blob) = low s
      /\ high (recorded s blob) = currentQuality s
      /\ bestBlob (recorded s blob) = bestBlob s).
Proof.
  unfold record_attempt.
  destruct (leb (size blob / 1024) target) eqn:E; cbn.
  - apply leb_le in E. repeat split; intros; lra.
  - apply leb_gt in E. repeat split; intros; lra.
Qed.

(** A search issues encodes only, all of this canvas and MIME type. *)
Lemma search_calls_are_encodes (fuel : nat) :
  forall s, snd (search fuel s)
            = map (EvEncode canvas mime) (qualities_tried (snd (search fuel s))).
Proof.
  induction fuel as [|fuel IH]; intro s; [reflexivity|].
  rewrite binarySearch_S.
  destruct (toBlob canvas mime (currentQuality s)) as [blob|];
    [|reflexivity].
  destruct (finished (recorded s blob) blob); [reflexivity|].
  cbn [snd]. rewrite qualities_tried_cons. cbn [map]. f_equal. apply IH.
Qed.

Lemma search_encode_bound (fuel : nat) :
  forall s n,
    (1 <= n)%nat -> maxIter <= inject_Z (iteration s + Z.of_nat n) ->
    (List.length (qualities_tried (snd (search fuel s))) <= n)%nat.
Proof.
  induction fuel as [|fuel IH]; intros s n Hn Hiter; [cbn; lia|].
  rewrite binarySearch_S.
  destruct (toBlob canvas mime (currentQuality s)) as [blob|];
    [|cbn; lia].
  destruct (finished (recorded s blob) blob) eqn:E; [cbn; lia|].
  cbn [snd]. rewrite qualities_tried_cons. cbn [List.length].
  destruct (recorded_fields s blob) as (Hit & _).
  assert (Hnot : inject_Z (iteration s + 1) < maxIter).
  { unfold search_done in E. apply orb_false_iff in E as [E _].
    apply leb_gt in E. rewrite Hit in E. exact E. }
  destruct n as [|[|n]]; [lia| |].
  - exfalso. replace (iteration s + Z.of_nat 1)%Z with (iteration s + 1)%Z
      in Hiter by lia. lra.
  - apply le_n_S. apply IH; [lia|].
    unfold bisect. cbn [iteration]. rewrite Hit.
    replace (iteration s + 1 + Z.of_nat (S n))%Z
      with (iteration s + Z.of_nat (S (S n)))%Z by lia.
    exact Hiter.
Qed.

Lemma initial_search_encode_bound (fuel : nat) (minQ maxQ : number) :
  (List.length
     (qualities_tried (snd (search fuel (initial_search minQ maxQ))))
   <= iterations_allowed maxIter)%nat.
Proof.
  apply search_encode_bound.
  - unfold iterations_allowed. lia.
  - cbn [iteration initial_search]. rewrite Z.add_0_l.
    apply Qle_trans with (inject_Z (Qceiling maxIter)); [apply Qle_ceiling|].
    rewrite <- Zle_Qle. unfold iterations_allowed. lia.
Qed.

(** X1.  Whatever the encoder does, a search encodes at most as many times
    as [maxIterations] allows: the least whole number that is at least
    [maxIterations], and at least once. *)
Theorem search_encodes_at_most_maxIterations (fuel : nat)
    (minQ maxQ : number) :
  (List.length
     (qualities_tried (snd (search fuel (initial_search minQ maxQ))))
   <= iterations_allowed maxIter)%nat.
Proof. apply initial_search_encode_bound. Qed.

Lemma bisect_between (s : SearchState) :
  low s <= high s ->
  low s <= currentQuality (bisect s) /\ currentQuality (bisect s) <= high s.
Proof.
  intro Hle. unfold bisect. cbn [currentQuality].
  change ((low s + high s) / 2) with ((low s + high s) * (1 # 2)). lra.
Qed.

Lemma search_qualities_within (fuel : nat) :
  forall s,
    low s <= currentQuality s -> currentQuality s <= high s ->
    Forall (fun q => low s <= q /\ q <= high s)
           (qualities_tried (snd (search fuel s))).
Proof.
  induction fuel as [|fuel IH]; intros s Hlo Hhi; [constructor|].
  rewrite binarySearch_S.
  destruct (toBlob canvas mime (currentQuality s)) as [blob|];
    [|repeat constructor; assumption].
  destruct (finished (recorded s blob) blob);
    [repeat constructor; assumption|].
  cbn [snd]. rewrite qualities_tried_cons.
  constructor; [split; assumption|].
  destruct (recorded_fields s blob) as (_ & Hc & Hfit & Hover).
  set (s1 := recorded s blob) in *.
  assert (Hb : low s <= low s1 /\ low s1 <= high s1 /\ high s1 <= high s).
  { destruct (Qlt_le_dec target (size blob / 1024)) as [Hgt|Hle].
    - destruct (Hover Hgt) as (-> & -> & _). lra.
    - destruct (Hfit Hle) as (-> & -> & _). lra. }
  destruct Hb as (Hb1 & Hb2 & Hb3).
  destruct (bisect_between s1 Hb2) as [Hm1 Hm2].
  eapply Forall_impl; [|apply (IH (bisect s1)); assumption].
  cbn beta. intros q [Hq1 Hq2].
  change (low (bisect s1)) with (low s1) in Hq1.
  change (high (bisect s1)) with (high s1) in Hq2. lra.
Qed.

(** X2.  With [minQuality <= maxQuality], every quality a search encodes at
    lies in [[minQuality, maxQuality]], whatever the encoder returns. *)
Theorem search_qualities_in_range (fuel : nat) (minQ maxQ : number) :
  minQ <= maxQ ->
  Forall (fun q => minQ <= q /\ q <= maxQ)
         (qualities_tried (snd (search fuel (initial_search minQ maxQ)))).
Proof.
  intro Hle.
  apply (search_qualities_within fuel (initial_search minQ maxQ));
    cbn; lra.
Qed.

Lemma over_target_not_conforming (q : number) (b : Blob) :
  toBlob canvas mime q = Some b -> target < size b / 1024 ->
  ~ conforming target canvas mime q.
Proof.
  intros Hb Hgt (b' & Hb' & Hle). rewrite Hb in Hb'. injection Hb' as <-. lra.
Qed.

(** What a search that resolves returns, from any state within its bounds:
    the last blob that fitted while it ran, which is of the highest fitting
    quality it tried; failing that, the [bestBlob] it started with; failing
    that too, a blob it encoded. *)
Lemma search_result_shape (fuel : nat) :
  forall s blob calls,
    low s <= currentQuality s -> currentQuality s <= high s ->
    search fuel s = (Resolved blob, calls) ->
    (exists q,
        In q (qualities_tried calls)
        /\ toBlob canvas mime q = Some blob
        /\ size blob / 1024 <= target
        /\ Forall (fun q' => conforming target canvas mime q' -> q' <= q)
             (qualities_tried calls))
    \/ (Forall (fun q' => ~ conforming target canvas mime q')
               (qualities_tried calls)
        /\ (bestBlob s = Some blob
            \/ (bestBlob s = None
                /\ exists q, In q (qualities_tried calls)
                             /\ toBlob canvas mime q = Some blob))).
Proof.
  induction fuel as [|fuel IH]; intros s blob calls Hlo Hhi Hrun;
    [discriminate Hrun|].
  rewrite binarySearch_S in Hrun.
  destruct (toBlob canvas mime (currentQuality s)) as [b|] eqn:Hb;
    [|discriminate Hrun].
  destruct (recorded_fields s b) as (_ & _ & Hfit & Hover).
  set (s1 := recorded s b) in *.
  destruct (Qlt_le_dec target (size b / 1024)) as [Hgt|Hle].
  - (* over the target: [high] comes down, [bestBlob] stays *)
    destruct (Hover Hgt) as (El & Eh & Eb).
    pose proof (over_target_not_conforming _ _ Hb Hgt) as Hnc.
    destruct (finished s1 b).
    + assert (Hblob : best_or (bestBlob s1) b = blob) by congruence.
      assert (Hcalls : [EvEncode canvas mime (currentQuality s)] = calls)
        by congruence.
      subst calls. rewrite qualities_tried_cons. right.
      split; [repeat constructor; exact Hnc|].
      rewrite Eb in Hblob. destruct (bestBlob s) as [b0|];
        cbn [best_or] in Hblob; subst blob.
      * left. reflexivity.
      * right. split; [reflexivity|].
        exists (currentQuality s). split; [left; reflexivity|exact Hb].
    + set (s2 := bisect s1) in *.
      assert (Hfst : fst (search fuel s2) = Resolved blob) by congruence.
      assert (Hcalls : EvEncode canvas mime (currentQuality s)
                       :: snd (search fuel s2) = calls) by congruence.
      subst calls. rewrite qualities_tried_cons.
      assert (Hb12 : low s1 <= high s1) by (rewrite El, Eh; exact Hlo).
      destruct (bisect_between s1 Hb12) as [Hm1 Hm2].
      destruct (IH s2 blob (snd (search fuel s2)) Hm1 Hm2)
        as [(q & Hin & Hq & Hsz & Hmax)|(Hnone & Hbest)].
      * rewrite <- Hfst. apply surjective_pairing.
      * left. exists q. repeat split; try assumption.
        -- right. exact Hin.
        -- constructor; [intro Hc; contradiction|exact Hmax].
      * right. split; [constructor; assumption|].
        change (bestBlob s2) with (bestBlob s1) in Hbest.
        rewrite Eb in Hbest.
        destruct Hbest as [Hbest|(Hbest & q & Hin & Hq)];
          [left; exact Hbest|].
        right. split; [exact Hbest|].
        exists q. split; [right; exact Hin|exact Hq].
  - (* within the target: the blob is kept, [low] comes up *)
    destruct (Hfit Hle) as (El & Eh & Eb).
    left.
    destruct (finished s1 b).
    + assert (Hblob : best_or (bestBlob s1) b = blob) by congruence.
      assert (Hcalls : [EvEncode canvas mime (currentQuality s)] = calls)
        by congruence.
      subst calls. rewrite Eb in Hblob. cbn [best_or] in Hblob. subst blob.
      rewrite qualities_tried_cons.
      exists (currentQuality s). repeat split; try assumption.
      * left. reflexivity.
      * repeat constructor. intros _. lra.
    + set (s2 := bisect s1) in *.
      assert (Hfst : fst (search fuel s2) = Resolved blob) by congruence.
      assert (Hcalls : EvEncode canvas mime (currentQuality s)
                       :: snd (search fuel s2) = calls) by congruence.
      subst calls. rewrite qualities_tried_cons.
      assert (Hb12 : low s1 <= high s1) by (rewrite El, Eh; exact Hhi).
      destruct (bisect_between s1 Hb12) as [Hm1 Hm2].
      pose proof (search_qualities_within fuel s2 Hm1 Hm2) as Hwithin.
      change (low s2) with (low s1) in Hwithin. rewrite El in Hwithin.
      destruct (IH s2 blob (snd (search fuel s2)) Hm1 Hm2)
        as [(q & Hin & Hq & Hsz & Hmax)|(Hnone & Hbest)].
      * rewrite <- Hfst. apply surjective_pairing.
      * exists q. repeat split; try assumption.
        -- right. exact Hin.
        -- constructor; [|exact Hmax].
           intros _. rewrite Forall_forall in Hwithin.
           apply (Hwithin q Hin).
      * change (bestBlob s2) with (bestBlob s1) in Hbest. rewrite Eb in Hbest.
        destruct Hbest as [Hbest|(Hbest & _)]; [|discriminate Hbest].
        injection Hbest as <-.
        exists (currentQuality s). repeat split; try assumption.
        -- left. reflexivity.
        -- constructor; [intros _; lra|].
           eapply Forall_impl; [|exact Hnone].
           cbn beta. intros q' Hn Hc. contradiction.
Qed.

(** X3.  Whatever the bounds it starts from, the blob a search resolves
    with is one it encoded, and it is over the target only if every blob the
    search encoded was. *)
Theorem search_over_target_only_if_all_over (fuel : nat)
    (minQ maxQ : number) (blob : Blob) (calls : list Event) :
  search fuel (initial_search minQ maxQ) = (Resolved blob, calls) ->
  (exists q, In q (qualities_tried calls)
             /\ toBlob canvas mime q = Some blob)
  /\ (target < size blob / 1024 ->
      Forall (fun q => ~ conforming target canvas mime q)
             (qualities_tried calls)).
Proof.
  intro Hrun.
  destruct (search_last_write target mime maxIter canvas fuel _ _ _ Hrun)
    as [(pre & q & post & Ht & Hq & Hsz & _)
       |(Hnone & [Hbest|(_ & pre & q & Ht & Hq)])].
  - split; [|intro Hgt; lra].
    exists q. split; [|exact Hq].
    rewrite Ht. apply in_or_app. right. left. reflexivity.
  - discriminate Hbest.
  - split; [|intros _; exact Hnone].
    exists q. split; [|exact Hq].
    rewrite Ht. apply in_or_app. right. left. reflexivity.
Qed.

(** X4.  In a search that starts with [minQuality <= maxQuality], if some
    quality tried gave a blob within the target, the blob the search
    resolves with is within the target too, and is the one encoded at the
    highest such quality among those tried. *)
Theorem search_returns_highest_conforming (fuel : nat)
    (minQ maxQ : number) (blob : Blob) (calls : list Event) (q0 : number) :
  minQ <= maxQ ->
  search fuel (initial_search minQ maxQ) = (Resolved blob, calls) ->
  In q0 (qualities_tried calls) -> conforming target canvas mime q0 ->
  exists q,
    In q (qualities_tried calls)
    /\ toBlob canvas mime q = Some blob
    /\ size blob / 1024 <= target
    /\ forall q', In q' (qualities_tried calls) ->
                  conforming target canvas mime q' -> q' <= q.
Proof.
  intros Hle Hrun Hin0 Hc0.
  destruct (search_result_shape fuel (initial_search minQ maxQ) blob calls)
    as [(q & Hin & Hq & Hsz & Hmax)|(Hnone & _)];
    try assumption; try (cbn; lra).
  - exists q. repeat split; try assumption.
    rewrite Forall_forall in Hmax. exact Hmax.
  - rewrite Forall_forall in Hnone. exfalso. apply (Hnone q0 Hin0 Hc0).
Qed.

(** X5.  When [maxIterations] is at most 1 (a negative value included), or
    when the blob encoded at [maxQuality] is within 5120 bytes of the target,
    the search encodes once, at [maxQuality], and resolves with that blob,
    be it above the target. *)
Theorem search_single_encode (fuel : nat) (minQ maxQ : number) (blob : Blob) :
  toBlob canvas mime maxQ = Some blob ->
  maxIter <= 1 \/ Math_abs (size blob - target * 1024) <= 5 * 1024 ->
  search (S fuel) (initial_search minQ maxQ)
  = (Resolved blob, [EvEncode canvas mime maxQ]).
Proof.
  intros Hb Hstop. rewrite binarySearch_S.
  cbn [currentQuality initial_search]. rewrite Hb.
  destruct (recorded_fields (initial_search minQ maxQ) blob)
    as (Hit & _ & Hfit & Hover).
  assert (Hdone : finished (recorded (initial_search minQ maxQ) blob) blob
                  = true).
  { apply search_done_iff. rewrite Hit. cbn [iteration initial_search].
    destruct Hstop as [Hone|Htol]; [left; exact Hone|right; exact Htol]. }
  rewrite Hdone.
  destruct (Qlt_le_dec target (size blob / 1024)) as [Hgt|Hle].
  - destruct (Hover Hgt) as (_ & _ & ->). reflexivity.
  - destruct (Hfit Hle) as (_ & _ & ->). reflexivity.
Qed.

(** X7.  Nothing guards [minQuality > maxQuality]: when the blob at
    [maxQuality] is then over the target by more than the tolerance and
    [maxIterations] exceeds 1, the second encode is at
    [(minQuality + maxQuality) / 2], a quality above [maxQuality]. *)
Theorem search_inverted_bounds_overshoot (fuel : nat) (minQ maxQ : number)
    (blob : Blob) :
  maxQ < minQ ->
  toBlob canvas mime maxQ = Some blob ->
  target + 5 < size blob / 1024 ->
  1 < maxIter ->
  maxQ < (minQ + maxQ) / 2
  /\ exists rest,
       qualities_tried (snd (search (S (S fuel)) (initial_search minQ maxQ)))
       = maxQ :: (minQ + maxQ) / 2 :: rest.
Proof.
  intros Hinv Hb Hover Hiter. split.
  { change ((minQ + maxQ) / 2) with ((minQ + maxQ) * (1 # 2)). lra. }
  rewrite binarySearch_S. cbn [currentQuality initial_search]. rewrite Hb.
  destruct (recorded_fields (initial_search minQ maxQ) blob)
    as (Hit & _ & _ & Hrec).
  destruct Hrec as (El & Eh & _); [lra|].
  set (s1 := recorded (initial_search minQ maxQ) blob) in *.
  cbn [low currentQuality initial_search] in El, Eh.
  assert (Hgo : finished s1 blob = false).
  { unfold search_done. apply orb_false_iff. split.
    - apply leb_gt. rewrite Hit. exact Hiter.
    - apply leb_gt. unfold Math_abs.
      apply Qlt_le_trans with (size blob / 1024 - target); [lra|].
      apply Qle_Qabs. }
  rewrite Hgo. cbn [snd]. rewrite qualities_tried_cons.
  assert (Ecur : currentQuality (bisect s1) = (minQ + maxQ) / 2)
    by (unfold bisect; cbn [currentQuality]; rewrite El, Eh; reflexivity).
  rewrite binarySearch_S, Ecur.
  destruct (toBlob canvas mime ((minQ + maxQ) / 2)) as [b2|];
    [|exists []; reflexivity].
  destruct (finished (recorded (bisect s1) b2) b2).
  - exists []. reflexivity.
  - eexists. cbn [snd]. rewrite qualities_tried_cons. reflexivity.
Qed.

(** A search is rejected at the encode that yields the [null] blob, and
    issues nothing after it. *)
Lemma search_rejected_at_null (fuel : nat) :
  forall s e,
    fst (search fuel s) = Rejected e ->
    exists pre q,
      snd (search fuel s) = pre ++ [EvEncode canvas mime q]
      /\ toBlob canvas mime q = None.
Proof.
  induction fuel as [|fuel IH]; intros s e; [discriminate|].
  rewrite binarySearch_S.
  destruct (toBlob canvas mime (currentQuality s)) as [blob|] eqn:Hb.
  - destruct (finished (recorded s blob) blob); [discriminate|].
    cbn [fst snd]. intro Hrej.
    destruct (IH _ _ Hrej) as (pre & q & Hcalls & Hq).
    exists (EvEncode canvas mime (currentQuality s) :: pre), q.
    rewrite Hcalls. split; [reflexivity|exact Hq].
  - intros _. exists [], (currentQuality s). split; [reflexivity|exact Hb].
Qed.
End SearchRuns.

(** ** A blob at [maxQuality] far below the target *)

Section Undershoot.
Context `{Browser}.
Variables (target : number) (mime : string) (maxIter : number).
Variable canvas : HTMLCanvasElement.
Variable maxQ : number.

Hypothesis under_target :
  forall q, q == maxQ ->
            exists b, toBlob canvas mime q = Some b
                      /\ size b / 1024 < target - 5.

Lemma search_stuck_at_max (m : nat) :
  forall fuel s,
    currentQuality s == maxQ -> high s == maxQ ->
    (m < fuel)%nat ->
    maxIter <= inject_Z (iteration s + 1 + Z.of_nat m) ->
    ((0 < m)%nat -> inject_Z (iteration s + Z.of_nat m) < maxIter) ->
    exists blob calls,
      binarySearch target mime maxIter canvas fuel s = (Resolved blob, calls)
      /\ List.length (qualities_tried calls) = S m
      /\ Forall (fun q => q == maxQ) (qualities_tried calls)
      /\ size blob / 1024 < target - 5.
Proof.
  induction m as [|m IH]; intros fuel s Hcur Hhigh Hfuel Hlast Hmore;
    (destruct fuel as [|fuel]; [lia|]);
    rewrite binarySearch_S;
    destruct (under_target _ Hcur) as (b & Hb & Hsmall);
    rewrite Hb;
    destruct (recorded_fields target s b) as (Hit & _ & Hfit & _);
    (destruct Hfit as (El & Eh & Eb); [lra|]);
    set (s1 := record_attempt target s b) in *.
  - assert (Hdone : search_done target maxIter s1 b = true).
    { unfold search_done. apply orb_true_iff. left. apply leb_le.
      rewrite Hit. rewrite Z.add_0_r in Hlast. exact Hlast. }
    rewrite Hdone, Eb. cbn [best_or].
    exists b, [EvEncode canvas mime (currentQuality s)].
    rewrite qualities_tried_cons.
    repeat split; try assumption. repeat constructor. exact Hcur.
  - assert (Hgo : search_done target maxIter s1 b = false).
    { unfold search_done. apply orb_false_iff. split.
      - apply leb_gt. rewrite Hit.
        apply Qle_lt_trans with (inject_Z (iteration s + Z.of_nat (S m)));
          [|apply Hmore; lia].
        rewrite <- Zle_Qle. lia.
      - apply leb_gt. unfold Math_abs.
        apply Qlt_le_trans with (- (size b / 1024 - target)); [lra|].
        rewrite <- Qabs_opp. apply Qle_Qabs. }
    rewrite Hgo.
    destruct (IH fuel (bisect s1)) as (blob & calls & Hrun & Hlen & Hall & Hsz).
    + unfold bisect. cbn [currentQuality]. rewrite El, Eh.
      change ((currentQuality s + high s) / 2)
        with ((currentQuality s + high s) * (1 # 2)). lra.
    + change (high (bisect s1)) with (high s1). rewrite Eh. exact Hhigh.
    + lia.
    + change (iteration (bisect s1)) with (iteration s1). rewrite Hit.
      replace (iteration s + 1 + 1 + Z.of_nat m)%Z
        with (iteration s + 1 + Z.of_nat (S m))%Z by lia.
      exact Hlast.
    + intro Hm. change (iteration (bisect s1)) with (iteration s1).
      rewrite Hit.
      replace (iteration s + 1 + Z.of_nat m)%Z
        with (iteration s + Z.of_nat (S m))%Z by lia.
      apply Hmore. lia.
    + exists blob, (EvEncode canvas mime (currentQuality s) :: calls).
      rewrite Hrun. cbn [fst snd]. rewrite qualities_tried_cons.
      repeat split; try assumption.
      * cbn [List.length]. rewrite Hlen. reflexivity.
      * constructor; assumption.
Qed.

(** X6.  When the blob at [maxQuality] is below the target by more than the
    tolerance, the search cannot raise the quality: it encodes at
    [maxQuality] again and again, as many times as [maxIterations] allows,
    and resolves with a blob that is still more than 5 KB short. *)
Theorem search_repeats_max_quality (fuel : nat) (minQ : number) :
  (iterations_allowed maxIter <= fuel)%nat ->
  exists blob calls,
    binarySearch target mime maxIter canvas fuel (initial_search minQ maxQ)
    = (Resolved blob, calls)
    /\ List.length (qualities_tried calls) = iterations_allowed maxIter
    /\ Forall (fun q => q == maxQ) (qualities_tried calls)
    /\ size blob / 1024 < target - 5.
Proof.
  intro Hfuel.
  unfold iterations_allowed in *.
  pose proof (Qle_ceiling maxIter) as Hc.
  pose proof (Qceiling_lt maxIter) as Hl.
  set (n := Z.to_nat (Z.max 1 (Qceiling maxIter))) in *.
  destruct (search_stuck_at_max (n - 1) fuel (initial_search minQ maxQ))
    as (blob & calls & Hrun & Hlen & Hall & Hsz);
    try (cbn [currentQuality high initial_search]; reflexivity).
  - lia.
  - cbn [iteration initial_search].
    apply Qle_trans with (inject_Z (Qceiling maxIter)); [exact Hc|].
    rewrite <- Zle_Qle. lia.
  - intro Hm. cbn [iteration initial_search].
    replace (0 + Z.of_nat (n - 1))%Z with (Qceiling maxIter - 1)%Z by lia.
    exact Hl.
  - exists blob, calls. repeat split; try assumption. lia.
Qed.
End Undershoot.


(** * Further properties of the retries and of the entry point *)

Section AttemptRuns.
Context `{Browser}.
Variables (target : number) (mime : string).
Variables (maxW maxH : option number) (maxIter minQ maxQ : number).
Variable allow : bool.
Variable img : HTMLImageElement.

Local Abbreviation attempt :=
  (attemptCompression target mime maxW maxH maxIter minQ maxQ allow img).
Local Abbreviation search_on r :=
  (binarySearch target mime maxIter (drawImageToCanvas img maxW maxH r)).

Lemma qualities_tried_app (l1 l2 : list Event) :
  qualities_tried (l1 ++ l2) = qualities_tried l1 ++ qualities_tried l2.
Proof. apply flat_map_app. Qed.

Lemma qualities_tried_draw (i : HTMLImageElement) (a b : option number)
    (r : number) (calls : list Event) :
  qualities_tried (EvDraw i a b r :: calls) = qualities_tried calls.
Proof. reflexivity. Qed.

Lemma ratios_used_draw (i : HTMLImageElement) (a b : option number)
    (r : number) (calls : list Event) :
  ratios_used (EvDraw i a b r :: calls) = r :: ratios_used calls.
Proof. reflexivity. Qed.

(** The calls of an attempt: its draw, the calls of its search, and the
    calls of the retry if line 182 launches one. *)
Lemma attempt_calls (sf fuel : nat) (r : number) :
  exists rest,
    snd (attempt sf (S fuel) r)
    = EvDraw img maxW maxH r
      :: snd (search_on r sf (initial_search minQ maxQ)) ++ rest
    /\ (rest = []
        \/ (rest = snd (attempt sf fuel (r * scaleStep))
            /\ fst (attempt sf (S fuel) r)
               = fst (attempt sf fuel (r * scaleStep))
            /\ exists blob,
                 fst (search_on r sf (initial_search minQ maxQ))
                 = Resolved blob
                 /\ retries target allow r blob = true)).
Proof.
  rewrite attemptCompression_S.
  destruct (fst (search_on r sf (initial_search minQ maxQ))) as [blob| |].
  - destruct (retries target allow r blob) eqn:E.
    + eexists. split; [reflexivity|]. right.
      split; [reflexivity|]. split; [reflexivity|].
      exists blob. split; [reflexivity|exact E].
    + exists []. rewrite app_nil_r. split; [reflexivity|left; reflexivity].
  - exists []. rewrite app_nil_r. split; [reflexivity|left; reflexivity].
  - exists []. rewrite app_nil_r. split; [reflexivity|left; reflexivity].
Qed.

Lemma attempt_encode_bound (sf fuel : nat) :
  forall r,
    (List.length (qualities_tried (snd (attempt sf fuel r)))
     <= List.length (ratios_used (snd (attempt sf fuel r)))
        * iterations_allowed maxIter)%nat.
Proof.
  induction fuel as [|fuel IH]; intro r; [cbn; lia|].
  destruct (attempt_calls sf fuel r) as (rest & -> & Hrest).
  rewrite qualities_tried_draw, ratios_used_draw, qualities_tried_app,
    ratios_used_app, binarySearch_draws_nothing, !length_app.
  cbn [List.length app].
  pose proof (initial_search_encode_bound target mime maxIter
                (drawImageToCanvas img maxW maxH r) sf minQ maxQ) as Hs.
  destruct Hrest as [->|(-> & _)].
  - cbn. lia.
  - specialize (IH (r * scaleStep)). lia.
Qed.

Lemma attempt_rejected_at_null (sf fuel : nat) :
  forall r e,
    fst (attempt sf fuel r) = Rejected e ->
    exists pre c q,
      snd (attempt sf fuel r) = pre ++ [EvEncode c mime q]
      /\ toBlob c mime q = None.
Proof.
  induction fuel as [|fuel IH]; intros r e; [discriminate|].
  rewrite attemptCompression_S.
  destruct (fst (search_on r sf (initial_search minQ maxQ)))
    as [blob|e'|] eqn:E.
  - destruct (retries target allow r blob); [|discriminate].
    cbn [fst snd]. intro Hrej.
    destruct (IH _ _ Hrej) as (pre & c & q & Hc & Hq).
    exists (EvDraw img maxW maxH r
            :: snd (search_on r sf (initial_search minQ maxQ)) ++ pre), c, q.
    rewrite Hc, app_assoc. split; [reflexivity|exact Hq].
  - intros _. cbn [snd].
    destruct (search_rejected_at_null _ _ _ _ _ _ _ E)
      as (pre & q & Hc & Hq).
    exists (EvDraw img maxW maxH r :: pre),
      (drawImageToCanvas img maxW maxH r), q.
    rewrite Hc. split; [reflexivity|exact Hq].
  - discriminate.
Qed.

(** An attempt settles over the tolerance only with scaling down switched
    off or at a last ratio of at most 0.25. *)
Lemma attempt_final (sf fuel : nat) :
  forall r blob,
    fst (attempt sf fuel r) = Resolved blob ->
    size blob / 1024 <= target + 5
    \/ allow = false
    \/ exists pre rl,
         ratios_used (snd (attempt sf fuel r)) = pre ++ [rl] /\ rl <= 1 # 4.
Proof.
  induction fuel as [|fuel IH]; intros r blob; [discriminate|].
  rewrite attemptCompression_S.
  pose proof (binarySearch_draws_nothing target mime maxIter
                (drawImageToCanvas img maxW maxH r) sf
                (initial_search minQ maxQ)) as Hnone.
  destruct (fst (search_on r sf (initial_search minQ maxQ)))
    as [b| |]; try discriminate.
  destruct (retries target allow r b) eqn:E; cbn [fst snd].
  - intro Hres. destruct (IH _ _ Hres) as [Hok|[Hoff|(pre & rl & Hr & Hle)]];
      [left; exact Hok|right; left; exact Hoff|].
    right. right. exists (r :: pre), rl.
    rewrite ratios_used_draw, ratios_used_app, Hnone, Hr.
    split; [reflexivity|exact Hle].
  - intros [= <-]. unfold retries in E.
    destruct (ltb (target + 5) (size b / 1024)) eqn:E1;
      [|left; apply ltb_ge; exact E1].
    destruct allow; [|right; left; reflexivity].
    cbn [andb] in E. apply ltb_ge in E.
    right. right. exists [], r.
    rewrite ratios_used_draw, Hnone. split; [reflexivity|exact E].
Qed.

(** The [k]-th draw of an attempt that starts at [r0] is at [r0] shrunk [k]
    times. *)
Lemma attempt_nth_ratio (sf fuel : nat) :
  forall r0 k r,
    nth_error (ratios_used (snd (attempt sf fuel r0))) k = Some r ->
    r = shrunk k r0.
Proof.
  induction fuel as [|fuel IH]; intros r0 k r.
  - destruct k; discriminate.
  - destruct (attempt_ratios target mime maxW maxH maxIter minQ maxQ allow img
                sf fuel r0) as [E|[_ E]]; rewrite E.
    + destruct k as [|[|k]]; cbn; try discriminate. intros [= <-]. reflexivity.
    + destruct k as [|k]; cbn [nth_error shrunk].
      * intros [= <-]. reflexivity.
      * apply IH.
Qed.

(** With scaling down switched off an attempt draws once. *)
Lemma attempt_without_retry (sf fuel : nat) (r : number) :
  allow = false ->
  ratios_used (snd (attempt sf (S fuel) r)) = [r].
Proof.
  intros ->. rewrite attemptCompression_S.
  pose proof (binarySearch_draws_nothing target mime maxIter
                (drawImageToCanvas img maxW maxH r) sf
                (initial_search minQ maxQ)) as Hnone.
  destruct (fst (search_on r sf (initial_search minQ maxQ))) as [b| |];
    cbn [snd]; try (rewrite ratios_used_draw, Hnone; reflexivity).
  unfold retries. rewrite andb_false_r. cbn [andb snd].
  rewrite ratios_used_draw, Hnone. reflexivity.
Qed.

(** Every draw of an attempt is of the decoded image under the same caps,
    and every encode is of a canvas so drawn, with the same MIME type. *)
Lemma attempt_calls_are_of_request (sf fuel : nat) :
  forall r,
    Forall (fun e =>
              match e with
              | EvLoad _ => False
              | EvDraw i mw mh _ => i = img /\ mw = maxW /\ mh = maxH
              | EvEncode c m _ =>
                  m = mime /\ exists r', c = drawImageToCanvas img maxW maxH r'
              end)
           (snd (attempt sf fuel r)).
Proof.
  induction fuel as [|fuel IH]; intro r; [constructor|].
  destruct (attempt_calls sf fuel r) as (rest & -> & Hrest).
  constructor; [repeat split|].
  apply Forall_app. split.
  - rewrite search_calls_are_encodes. apply Forall_map, Forall_forall.
    intros q _. split; [reflexivity|]. exists r. reflexivity.
  - destruct Hrest as [->|(-> & _)]; [constructor|apply IH].
Qed.

(** With an encoder that never yields [null] and enough fuel, an attempt
    resolves. *)
Lemma attempt_resolves (sf : nat) (k : nat) :
  (forall c q, toBlob c mime q <> None) ->
  (1 <= sf)%nat -> maxIter <= inject_Z (Z.of_nat sf) ->
  forall fuel r,
    shrunk k r <= 1 # 4 -> (k < fuel)%nat ->
    exists blob, fst (attempt sf fuel r) = Resolved blob.
Proof.
  intros Htotal Hsf Hiter fuel r Hk Hfuel.
  pose proof (attempt_terminates target mime maxW maxH maxIter minQ maxQ allow
                img sf k Hsf Hiter fuel r Hk Hfuel) as Hterm.
  destruct (fst (attempt sf fuel r)) as [blob|e|] eqn:E.
  - exists blob. reflexivity.
  - destruct (attempt_rejected_at_null sf fuel r e E)
      as (pre & c & q & _ & Hq).
    exfalso. apply (Htotal c q Hq).
  - contradiction.
Qed.
End AttemptRuns.

Lemma shrunk_closed_form (k : nat) :
  forall r, shrunk k r == r * inject_Z (9 ^ Z.of_nat k)
                         / inject_Z (10 ^ Z.of_nat k).
Proof.
  induction k as [|k IH]; intro r; cbn [shrunk].
  - change (inject_Z (9 ^ Z.of_nat 0)) with 1.
    change (inject_Z (10 ^ Z.of_nat 0)) with 1.
    change (?x / 1) with (x * 1). lra.
  - rewrite IH, Nat2Z.inj_succ, !Z.pow_succ_r, !inject_Z_mult by lia.
    change (inject_Z 9) with 9. change (inject_Z 10) with 10.
    set (p := inject_Z (9 ^ Z.of_nat k)).
    set (t := inject_Z (10 ^ Z.of_nat k)).
    unfold Qdiv, scaleStep. rewrite Qinv_mult_distr.
    change (/ 10) with (1 # 10).
    setoid_replace (r * (9 # 10) * p * / t)
      with (r * (9 * p) * ((1 # 10) * / t)) by ring.
    reflexivity.
Qed.

Section CallRuns.
Context `{Browser}.

Local Abbreviation attempts_of fuel o t img :=
  (attemptCompression t (or_string (mimeType o) "image/jpeg")
     (or_null (maxWidth o)) (or_null (maxHeight o))
     (or_number (maxIterations o) 10)
     (or_number (minQuality o) (1 # 10))
     (or_number (maxQuality o) (95 # 100))
     (match allowScaleDown o with Some false => false | _ => true end)
     img fuel fuel 1).

Lemma qualities_tried_load (file : File) (calls : list Event) :
  qualities_tried (EvLoad file :: calls) = qualities_tried calls.
Proof. reflexivity. Qed.

(** X8.  A call encodes at most 15 times what [maxIterations] allows per
    search (150 times under the defaults), whatever the image and the
    encoder. *)
Theorem call_encodes_bounded (fuel : nat) (file : File) (o : Options) :
  (List.length
     (qualities_tried (snd (compressImageToTarget fuel file (Some o))))
   <= 15 * iterations_allowed (or_number (maxIterations o) 10%Q))%nat.
Proof.
  destruct (compressImageToTarget_cases fuel file (Some o))
    as [[_ E]|[(_ & _ & E)|(o' & t & img & Eo & _ & _ & _ & E)]];
    rewrite E; cbn [snd]; try (cbn; lia).
  injection Eo as <-.
  rewrite qualities_tried_load.
  pose proof (attempt_encode_bound t (or_string (mimeType o) "image/jpeg")
                (or_null (maxWidth o)) (or_null (maxHeight o))
                (or_number (maxIterations o) 10)
                (or_number (minQuality o) (1 # 10))
                (or_number (maxQuality o) (95 # 100))
                (match allowScaleDown o with Some false => false | _ => true end)
                img fuel fuel 1) as Henc.
  destruct (attempt_ratios_bounds t (or_string (mimeType o) "image/jpeg")
              (or_null (maxWidth o)) (or_null (maxHeight o))
              (or_number (maxIterations o) 10)
              (or_number (minQuality o) (1 # 10))
              (or_number (maxQuality o) (95 # 100))
              (match allowScaleDown o with Some false => false | _ => true end)
              img fuel fuel 1) as (_ & _ & _ & _ & Hlen).
  specialize (Hlen 14%nat (proj1 shrunk_14)).
  nia.
Qed.

(** X9.  A call is rejected in one of three ways only: for a missing or zero
    target, before any host call; for a file that does not decode, right
    after the decode; or for a [null] blob, right after the encode that
    yielded it. *)
Theorem call_rejections (fuel : nat) (file : File)
    (options : option Options) (e : Error) :
  fst (compressImageToTarget fuel file options) = Rejected e ->
  (e = TargetSizeRequired
   /\ truthy (requested_target options) = false
   /\ snd (compressImageToTarget fuel file options) = [])
  \/ (e = LoadError
      /\ decode file = None
      /\ snd (compressImageToTarget fuel file options) = [EvLoad file])
  \/ (e = TypeError
      /\ exists pre c m q,
           snd (compressImageToTarget fuel file options)
           = pre ++ [EvEncode c m q]
           /\ toBlob c m q = None).
Proof.
  destruct (compressImageToTarget_cases fuel file options)
    as [[Hf E]|[(_ & Hd & E)|(o & t & img & _ & _ & _ & _ & E)]];
    rewrite E; cbn [fst snd].
  - intros [= <-]. left. repeat split. exact Hf.
  - intros [= <-]. right. left. repeat split. exact Hd.
  - intro Hrej. right. right.
    pose proof (attempt_rejection _ _ _ _ _ _ _ _ _ _ _ _ _ Hrej) as ->.
    destruct (attempt_rejected_at_null _ _ _ _ _ _ _ _ _ _ _ _ _ Hrej)
      as (pre & c & q & Hc & Hq).
    split; [reflexivity|].
    exists (EvLoad file :: pre), c, (or_string (mimeType o) "image/jpeg"), q.
    rewrite Hc. split; [reflexivity|exact Hq].
Qed.

(** X10.  A call with a non-zero target, a file that decodes and an encoder
    that never yields [null] resolves with a blob. *)
Theorem call_resolves (fuel : nat) (file : File) (o : Options)
    (t : number) (img : HTMLImageElement) :
  targetSizeKB o = Some t -> ~ t == 0 ->
  decode file = Some img ->
  (forall c m q, toBlob c m q <> None) ->
  (enough_fuel (Some o) <= fuel)%nat ->
  exists blob, fst (compressImageToTarget fuel file (Some o)) = Resolved blob.
Proof.
  intros Ht Hnz Hd Htotal Hfuel.
  destruct (compressImageToTarget_cases fuel file (Some o))
    as [[Hf _]|[(_ & Hd' & _)|(o' & t' & img' & Eo & _ & _ & _ & E)]].
  - cbn [requested_target] in Hf. rewrite Ht in Hf.
    apply truthy_nonzero in Hnz. congruence.
  - congruence.
  - injection Eo as <-. rewrite E. cbn [fst].
    unfold enough_fuel in Hfuel.
    apply (attempt_resolves _ _ _ _ _ _ _ _ _ fuel 14%nat).
    + intros c q. apply Htotal.
    + lia.
    + apply Qle_trans
        with (inject_Z (Qceiling (or_number (maxIterations o) 10)));
        [apply Qle_ceiling|].
      rewrite <- Zle_Qle. lia.
    + apply shrunk_14.
    + lia.
Qed.

(** X11.  With [allowScaleDown: false] a call draws at most once, at ratio
    1, whatever the sizes the encoder produces. *)
Theorem call_without_scale_down_draws_once (fuel : nat) (file : File)
    (o : Options) :
  allowScaleDown o = Some false ->
  ratios_used (snd (compressImageToTarget fuel file (Some o))) = []
  \/ ratios_used (snd (compressImageToTarget fuel file (Some o))) = [1].
Proof.
  intro Hoff.
  destruct (compressImageToTarget_cases fuel file (Some o))
    as [[_ E]|[(_ & _ & E)|(o' & t & img & Eo & _ & _ & _ & E)]];
    rewrite E; cbn [snd]; try (left; reflexivity).
  injection Eo as <-. rewrite ratios_used_load, Hoff.
  destruct fuel as [|fuel]; [left; reflexivity|].
  right. apply attempt_without_retry. reflexivity.
Qed.

(** X12.  A call resolves with a blob more than 5 KB over the target only
    with [allowScaleDown: false] or after a last draw at a ratio of at most
    0.25: while a smaller ratio is left to try, an oversized result is never
    returned. *)
Theorem call_oversized_only_at_floor (fuel : nat) (file : File)
    (o : Options) (t : number) (blob : Blob) :
  targetSizeKB o = Some t ->
  fst (compressImageToTarget fuel file (Some o)) = Resolved blob ->
  size blob / 1024 <= t + 5
  \/ allowScaleDown o = Some false
  \/ exists pre rl,
       ratios_used (snd (compressImageToTarget fuel file (Some o)))
       = pre ++ [rl]
       /\ rl <= 1 # 4.
Proof.
  intros Ht.
  destruct (compressImageToTarget_cases fuel file (Some o))
    as [[_ E]|[(_ & _ & E)|(o' & t' & img & Eo & Et & _ & _ & E)]];
    rewrite E; cbn [fst snd]; try discriminate.
  injection Eo as <-. rewrite Ht in Et. injection Et as <-.
  intro Hres. rewrite ratios_used_load.
  destruct (attempt_final _ _ _ _ _ _ _ _ _ _ _ _ _ Hres)
    as [Hok|[Hoff|Hfloor]]; [left; exact Hok| |right; right; exact Hfloor].
  right. left. destruct (allowScaleDown o) as [[|]|]; congruence.
Qed.

(** X13.  A call draws at most 15 times, and its [k]-th draw (counting
    from 0) is at the ratio 0.9 to the power [k], to within [10 ^ -12]. *)
Theorem call_kth_ratio (fuel : nat) (file : File)
    (options : option Options) (k : nat) (r : number) :
  nth_error (ratios_used (snd (compressImageToTarget fuel file options))) k
  = Some r ->
  (k < 15)%nat
  /\ Qabs (r - inject_Z (9 ^ Z.of_nat k) / inject_Z (10 ^ Z.of_nat k))
     <= 1 # 1000000000000.
Proof.
  intro Hnth.
  assert (Hk : (k < 15)%nat).
  { assert (Hsome : nth_error
                      (ratios_used
                         (snd (compressImageToTarget fuel file options))) k
                    <> None) by congruence.
    apply nth_error_Some in Hsome.
    destruct (compressImageToTarget_cases fuel file options)
      as [[_ E]|[(_ & _ & E)|(o & t & img & _ & _ & _ & _ & E)]];
      rewrite E in Hsome; cbn [snd] in Hsome; try (cbn in Hsome; lia).
    rewrite ratios_used_load in Hsome.
    destruct (attempt_ratios_bounds t (or_string (mimeType o) "image/jpeg")
                (or_null (maxWidth o)) (or_null (maxHeight o))
                (or_number (maxIterations o) 10)
                (or_number (minQuality o) (1 # 10))
                (or_number (maxQuality o) (95 # 100))
                (match allowScaleDown o with Some false => false | _ => true end)
                img fuel fuel 1) as (_ & _ & _ & _ & Hlen).
    specialize (Hlen 14%nat (proj1 shrunk_14)). lia. }
  split; [exact Hk|].
  assert (Hr : r = shrunk k 1).
  { destruct (compressImageToTarget_cases fuel file options)
      as [[_ E]|[(_ & _ & E)|(o & t & img & _ & _ & _ & _ & E)]];
      rewrite E in Hnth; cbn [snd] in Hnth.
    - destruct k; discriminate Hnth.
    - destruct k; discriminate Hnth.
    - rewrite ratios_used_load in Hnth.
      apply (attempt_nth_ratio _ _ _ _ _ _ _ _ _ _ _ _ _ _ Hnth). }
  assert (E : r - inject_Z (9 ^ Z.of_nat k) / inject_Z (10 ^ Z.of_nat k) == 0).
  { rewrite Hr, shrunk_closed_form.
    setoid_replace (1 * inject_Z (9 ^ Z.of_nat k) / inject_Z (10 ^ Z.of_nat k))
      with (inject_Z (9 ^ Z.of_nat k) / inject_Z (10 ^ Z.of_nat k))
      by (apply Qmult_comp; [apply Qmult_1_l|reflexivity]).
    ring. }
  rewrite E. intro H0. discriminate H0.
Qed.

(** X14.  Every host call of a run belongs to the request: the one decode
    is of the given file, every draw is of the decoded image under the caps
    [maxWidth || null] and [maxHeight || null], and every encode is of a
    canvas so drawn with the MIME type [mimeType || 'image/jpeg']. *)
Theorem call_stays_on_request (fuel : nat) (file : File) (o : Options)
    (img : HTMLImageElement) :
  decode file = Some img ->
  Forall (fun e =>
            match e with
            | EvLoad f => f = file
            | EvDraw i mw mh _ =>
                i = img /\ mw = or_null (maxWidth o)
                /\ mh = or_null (maxHeight o)
            | EvEncode c m _ =>
                m = or_string (mimeType o) "image/jpeg"
                /\ exists r, c = drawImageToCanvas img (or_null (maxWidth o))
                                   (or_null (maxHeight o)) r
            end)
         (snd (compressImageToTarget fuel file (Some o))).
Proof.
  intro Hd.
  destruct (compressImageToTarget_cases fuel file (Some o))
    as [[_ E]|[(_ & Hd' & _)|(o' & t & img' & Eo & _ & _ & Hd' & E)]];
    [rewrite E; constructor|congruence|].
  injection Eo as <-. rewrite Hd in Hd'. injection Hd' as <-.
  rewrite E. cbn [snd]. constructor; [reflexivity|].
  eapply Forall_impl;
    [|apply (attempt_calls_are_of_request t
               (or_string (mimeType o) "image/jpeg")
               (or_null (maxWidth o)) (or_null (maxHeight o))
               (or_number (maxIterations o) 10)
               (or_number (minQuality o) (1 # 10))
               (or_number (maxQuality o) (95 # 100))
               (match allowScaleDown o with Some false => false | _ => true end)
               img fuel fuel 1)].
  intros [f|i mw mh r|c m q]; cbn beta iota; [contradiction|tauto|tauto].
Qed.
End CallRuns.


(** * Further properties of the drawing *)

Lemma cap_fires (m x : number) :
  0 <= m -> negb (Qeq_bool m 0) && ltb m x = true -> 0 < m /\ m < x.
Proof.
  intros Hm E. apply andb_true_iff in E as [E1 E2].
  apply ltb_lt in E2. split; [|exact E2].
  apply negb_true_iff in E1.
  destruct (Qlt_le_dec 0 m) as [Hpos|Hle]; [exact Hpos|].
  assert (Ez : m == 0) by lra.
  apply Qeq_bool_iff in Ez. congruence.
Qed.

Lemma apply_ratio_shrinks (image : HTMLImageElement) (r : number) :
  0 <= r ->
  let p := apply_ratio r (N2number (width image), N2number (height image)) in
  (0 <= fst p /\ fst p <= N2number (width image))
  /\ (0 <= snd p /\ snd p <= N2number (height image)).
Proof.
  intros Hr p. destruct (ratio_stage_nonneg image r Hr) as [Hw Hh].
  fold p in Hw, Hh. repeat split; try assumption; subst p;
    unfold apply_ratio in *; destruct (ltb r 1) eqn:E; cbn [fst snd];
    try lra; apply ltb_lt in E; apply Math_round_le_int;
    [pose proof (N2number_nonneg (width image))
    |pose proof (N2number_nonneg (height image))];
    unfold N2number in *; nra.
Qed.

Lemma clamp_width_shrinks (cap : option number) (p : number * number)
    (bound : Z) :
  cap_nonneg cap -> 0 <= fst p -> 0 <= snd p -> snd p <= inject_Z bound ->
  let p' := clamp_width cap p in
  (0 <= fst p' /\ fst p' <= fst p)
  /\ (0 <= snd p' /\ snd p' <= inject_Z bound).
Proof.
  intros Hcap Hw Hh Hb. unfold clamp_width.
  destruct cap as [mw|]; cbn zeta; [|repeat split; try assumption; lra].
  destruct (negb (Qeq_bool mw 0) && ltb mw (fst p)) eqn:E;
    [|repeat split; try assumption; lra].
  destruct (cap_fires mw (fst p) (Hcap mw eq_refl) E) as [Hpos Hlt].
  destruct (scale_by_fraction (snd p) mw (fst p) Hh Hpos Hlt) as [H0 H1].
  cbn [fst snd]. repeat split; try lra.
  - apply Math_round_nonneg. exact H0.
  - apply Math_round_le_int. lra.
Qed.

Lemma clamp_height_shrinks (cap : option number) (p : number * number)
    (bound : Z) :
  cap_nonneg cap -> 0 <= fst p -> 0 <= snd p -> fst p <= inject_Z bound ->
  let p' := clamp_height cap p in
  (0 <= fst p' /\ fst p' <= inject_Z bound)
  /\ (0 <= snd p' /\ snd p' <= snd p).
Proof.
  intros Hcap Hw Hh Hb. unfold clamp_height.
  destruct cap as [mh|]; cbn zeta; [|repeat split; try assumption; lra].
  destruct (negb (Qeq_bool mh 0) && ltb mh (snd p)) eqn:E;
    [|repeat split; try assumption; lra].
  destruct (cap_fires mh (snd p) (Hcap mh eq_refl) E) as [Hpos Hlt].
  destruct (scale_by_fraction (fst p) mh (snd p) Hw Hpos Hlt) as [H0 H1].
  cbn [fst snd]. repeat split; try lra.
  - apply Math_round_nonneg. exact H0.
  - apply Math_round_le_int. lra.
Qed.

Lemma canvas_size_stages (image : HTMLImageElement)
    (maxW maxH : option number) (r : number) :
  canvas_width (drawImageToCanvas image maxW maxH r)
  = fst (clamp_height maxH
           (clamp_width maxW
              (apply_ratio r (N2number (width image),
                              N2number (height image)))))
  /\ canvas_height (drawImageToCanvas image maxW maxH r)
     = snd (clamp_height maxH
              (clamp_width maxW
                 (apply_ratio r (N2number (width image),
                                 N2number (height image))))).
Proof.
  pose proof (drawImageToCanvas_stages image maxW maxH r) as Hc.
  cbn zeta in Hc. rewrite <- Hc. split; reflexivity.
Qed.

(** X15.  Drawing never enlarges: for a ratio that is not negative (above 1
    included) and caps that are absent, zero or positive, the canvas is at
    most as wide and as high as the source, and its sides are not
    negative. *)
Theorem drawImageToCanvas_never_upscales (image : HTMLImageElement)
    (maxW maxH : option number) (r : number) :
  cap_nonneg maxW -> cap_nonneg maxH -> 0 <= r ->
  let c := drawImageToCanvas image maxW maxH r in
  (0 <= canvas_width c /\ canvas_width c <= N2number (width image))
  /\ (0 <= canvas_height c /\ canvas_height c <= N2number (height image)).
Proof.
  intros HW HH Hr c. subst c.
  destruct (canvas_size_stages image maxW maxH r) as [-> ->].
  destruct (apply_ratio_shrinks image r Hr) as ((Hw0 & Hw1) & (Hh0 & Hh1)).
  set (p1 := apply_ratio r (N2number (width image), N2number (height image)))
    in *.
  destruct (clamp_width_shrinks maxW p1 (Z.of_N (height image)) HW Hw0 Hh0 Hh1)
    as ((Hw2 & Hw3) & (Hh2 & Hh3)).
  set (p2 := clamp_width maxW p1) in *.
  assert (Hw4 : fst p2 <= inject_Z (Z.of_N (width image)))
    by (unfold N2number in Hw1; lra).
  destruct (clamp_height_shrinks maxH p2 (Z.of_N (width image)) HH Hw2 Hh2 Hw4)
    as ((Hw5 & Hw6) & (Hh5 & Hh6)).
  unfold N2number. repeat split; try assumption. lra.
Qed.

Lemma clamp_width_whole (cap : option number) (p : number * number) :
  whole_pixels cap -> whole (fst p) -> whole (snd p) ->
  whole (fst (clamp_width cap p)) /\ whole (snd (clamp_width cap p)).
Proof.
  intros Hcap Hw Hh. unfold clamp_width.
  destruct cap as [mw|]; [|split; assumption].
  destruct (negb (Qeq_bool mw 0) && ltb mw (fst p)) eqn:E;
    [|split; assumption].
  destruct (Hcap mw eq_refl) as (z & Hz & Emw).
  assert (Hm : 0 <= mw)
    by (rewrite Emw; change 0 with (inject_Z 0); rewrite <- Zle_Qle; lia).
  destruct (cap_fires mw (fst p) Hm E) as [Hpos Hlt].
  cbn [fst snd]. split.
  - exists z. split; [lia|exact Emw].
  - apply Math_round_whole.
    apply (scale_by_fraction (snd p) mw (fst p));
      [apply whole_nonneg; exact Hh|exact Hpos|exact Hlt].
Qed.

Lemma clamp_height_whole (cap : option number) (p : number * number) :
  whole_pixels cap -> whole (fst p) -> whole (snd p) ->
  whole (fst (clamp_height cap p)) /\ whole (snd (clamp_height cap p)).
Proof.
  intros Hcap Hw Hh. unfold clamp_height.
  destruct cap as [mh|]; [|split; assumption].
  destruct (negb (Qeq_bool mh 0) && ltb mh (snd p)) eqn:E;
    [|split; assumption].
  destruct (Hcap mh eq_refl) as (z & Hz & Emh).
  assert (Hm : 0 <= mh)
    by (rewrite Emh; change 0 with (inject_Z 0); rewrite <- Zle_Qle; lia).
  destruct (cap_fires mh (snd p) Hm E) as [Hpos Hlt].
  cbn [fst snd]. split.
  - apply Math_round_whole.
    apply (scale_by_fraction (fst p) mh (snd p));
      [apply whole_nonneg; exact Hw|exact Hpos|exact Hlt].
  - exists z. split; [lia|exact Emh].
Qed.

(** X16.  With caps that are whole numbers of pixels (or absent) and a
    ratio that is not negative, both sides of the canvas are non-negative
    whole numbers. *)
Theorem drawImageToCanvas_whole_pixels (image : HTMLImageElement)
    (maxW maxH : option number) (r : number) :
  whole_pixels maxW -> whole_pixels maxH -> 0 <= r ->
  whole (canvas_width (drawImageToCanvas image maxW maxH r))
  /\ whole (canvas_height (drawImageToCanvas image maxW maxH r)).
Proof.
  intros HW HH Hr.
  destruct (canvas_size_stages image maxW maxH r) as [-> ->].
  assert (H1 : whole (fst (apply_ratio r (N2number (width image),
                                          N2number (height image))))
               /\ whole (snd (apply_ratio r (N2number (width image),
                                             N2number (height image))))).
  { pose proof (N2number_nonneg (width image)).
    pose proof (N2number_nonneg (height image)).
    unfold apply_ratio. destruct (ltb r 1); cbn [fst snd].
    - split; apply Math_round_whole; nra.
    - split; apply N2number_whole. }
  destruct H1 as [Hw1 Hh1].
  destruct (clamp_width_whole maxW _ HW Hw1 Hh1) as [Hw2 Hh2].
  apply clamp_height_whole; assumption.
Qed.

(** X17.  Without caps and at a ratio below 1, each side of the canvas is
    within half a pixel of the source side times the ratio; a side whose
    product is below one half becomes 0, an empty canvas. *)
Theorem drawImageToCanvas_scaled_within_half_pixel (image : HTMLImageElement)
    (r : number) :
  r < 1 ->
  let c := drawImageToCanvas image None None r in
  let w := N2number (width image) in
  let h := N2number (height image) in
  (w * r - (1 # 2) < canvas_width c /\ canvas_width c <= w * r + (1 # 2))
  /\ (h * r - (1 # 2) < canvas_height c
      /\ canvas_height c <= h * r + (1 # 2))
  /\ (0 <= r -> w * r < 1 # 2 -> canvas_width c == 0)
  /\ (0 <= r -> h * r < 1 # 2 -> canvas_height c == 0).
Proof.
  intros Hr c w h. subst c.
  destruct (canvas_size_stages image None None r) as [-> ->].
  unfold clamp_height, clamp_width, apply_ratio.
  apply ltb_lt in Hr. rewrite Hr. cbn [fst snd]. fold w h.
  pose proof (N2number_nonneg (width image)) as Hw. fold w in Hw.
  pose proof (N2number_nonneg (height image)) as Hh. fold h in Hh.
  assert (Hzero : forall x, 0 <= x -> x < 1 # 2 -> Math_round x == 0).
  { intros x Hx0 Hx1. destruct (Math_round_whole x Hx0) as (z & Hz & Ez).
    destruct (Math_round_bounds x) as [_ Hub]. rewrite Ez in Hub |- *.
    assert (Hlt : inject_Z z < inject_Z 1)
      by (change (inject_Z 1) with 1; lra).
    rewrite <- Zlt_Qlt in Hlt. assert (z = 0%Z) by lia. subst z.
    reflexivity. }
  split; [apply Math_round_bounds|].
  split; [apply Math_round_bounds|].
  split; intros Hr0 Hsmall; apply Hzero; try exact Hsmall; nra.
Qed.

(** * The further properties on the synthetic host *)

Lemma search_qualities_in_range_witness :
  1 # 10 <= 95 # 100
  /\ Forall (fun q => 1 # 10 <= q /\ q <= 95 # 100)
       (qualities_tried (snd (synthetic_search synthetic_canvas 10))).
Proof.
  assert (H1 : 1 # 10 <= 95 # 100) by (intro E; discriminate E).
  split; [exact H1|].
  exact (@search_qualities_in_range synthetic 300 "image/jpeg" 10
           synthetic_canvas 10 (1 # 10) (95 # 100) H1).
Defined.

Lemma search_over_target_only_if_all_over_witness :
  synthetic_search synthetic_canvas 10
  = (Resolved (resolved_blob (synthetic_search synthetic_canvas 10)),
     snd (synthetic_search synthetic_canvas 10))
  /\ exists q,
       In q (qualities_tried (snd (synthetic_search synthetic_canvas 10)))
       /\ toBlob synthetic_canvas "image/jpeg" q
          = Some (resolved_blob (synthetic_search synthetic_canvas 10)).
Proof.
  assert (H2 : synthetic_search synthetic_canvas 10
               = (Resolved (resolved_blob (synthetic_search synthetic_canvas 10)),
                  snd (synthetic_search synthetic_canvas 10)))
    by (vm_compute; reflexivity).
  split; [exact H2|].
  exact (proj1 (@search_over_target_only_if_all_over synthetic 300
                  "image/jpeg" 10 synthetic_canvas 10 (1 # 10) (95 # 100)
                  _ _ H2)).
Defined.

Lemma search_returns_highest_conforming_witness :
  (1 # 10 <= 95 # 100
   /\ synthetic_search synthetic_canvas 10
      = (Resolved (resolved_blob (synthetic_search synthetic_canvas 10)),
         snd (synthetic_search synthetic_canvas 10))
   /\ In (nth 3 (qualities_tried (snd (synthetic_search synthetic_canvas 10))) 0)
        (qualities_tried (snd (synthetic_search synthetic_canvas 10)))
   /\ conforming 300 synthetic_canvas "image/jpeg"
        (nth 3 (qualities_tried (snd (synthetic_search synthetic_canvas 10))) 0))
  /\ size (resolved_blob (synthetic_search synthetic_canvas 10)) / 1024 <= 300.
Proof.
  assert (H1 : 1 # 10 <= 95 # 100) by (intro E; discriminate E).
  assert (H2 : synthetic_search synthetic_canvas 10
               = (Resolved (resolved_blob (synthetic_search synthetic_canvas 10)),
                  snd (synthetic_search synthetic_canvas 10)))
    by (vm_compute; reflexivity).
  assert (H3 : In (nth 3 (qualities_tried
                            (snd (synthetic_search synthetic_canvas 10))) 0)
                 (qualities_tried (snd (synthetic_search synthetic_canvas 10))))
    by (apply nth_In; vm_compute; lia).
  assert (H4 : conforming 300 synthetic_canvas "image/jpeg"
                 (nth 3 (qualities_tried
                           (snd (synthetic_search synthetic_canvas 10))) 0)).
  { eexists. split; [reflexivity|]. vm_compute. intro E. discriminate E. }
  split; [repeat split; assumption|].
  destruct (@search_returns_highest_conforming synthetic 300 "image/jpeg" 10
              synthetic_canvas 10 (1 # 10) (95 # 100) _ _ _ H1 H2 H3 H4)
    as (q & _ & _ & Hsz & _).
  exact Hsz.
Defined.

Lemma search_single_encode_witness :
  (toBlob synthetic_canvas "image/jpeg" (3 # 10) = Some (1000 * (3 # 10) * 1024)
   /\ (10 <= 1
       \/ Math_abs (size (1000 * (3 # 10) * 1024) - 300 * 1024) <= 5 * 1024))
  /\ binarySearch 300 "image/jpeg" 10 synthetic_canvas 1
       (initial_search (1 # 10) (3 # 10))
     = (Resolved (1000 * (3 # 10) * 1024),
        [EvEncode synthetic_canvas "image/jpeg" (3 # 10)]).
Proof.
  assert (H1 : toBlob synthetic_canvas "image/jpeg" (3 # 10)
               = Some (1000 * (3 # 10) * 1024)) by reflexivity.
  assert (H2 : 10 <= 1
               \/ Math_abs (size (1000 * (3 # 10) * 1024) - 300 * 1024)
                  <= 5 * 1024)
    by (right; vm_compute; intro E; discriminate E).
  split; [split; assumption|].
  exact (@search_single_encode synthetic 300 "image/jpeg" 10 synthetic_canvas
           0 (1 # 10) (3 # 10) _ H1 H2).
Defined.

Lemma search_repeats_max_quality_witness :
  ((forall q, q == 95 # 100 ->
              exists b, toBlob synthetic_canvas "image/jpeg" q = Some b
                        /\ size b / 1024 < 2000 - 5)
   /\ (iterations_allowed 10%Q <= 10)%nat)
  /\ exists blob calls,
       binarySearch 2000 "image/jpeg" 10 synthetic_canvas 10
         (initial_search (1 # 10) (95 # 100))
       = (Resolved blob, calls)
       /\ List.length (qualities_tried calls) = iterations_allowed 10%Q
       /\ Forall (fun q => q == 95 # 100) (qualities_tried calls)
       /\ size blob / 1024 < 2000 - 5.
Proof.
  assert (H1 : forall q, q == 95 # 100 ->
                 exists b, toBlob synthetic_canvas "image/jpeg" q = Some b
                           /\ size b / 1024 < 2000 - 5).
  { intros q Hq. eexists. split; [reflexivity|]. cbn [size synthetic].
    change (1000 * q * 1024 / 1024) with (1000 * q * 1024 * (1 # 1024)).
    lra. }
  assert (H2 : (iterations_allowed 10%Q <= 10)%nat) by (vm_compute; lia).
  split; [split; assumption|].
  exact (@search_repeats_max_quality synthetic 2000 "image/jpeg" 10
           synthetic_canvas (95 # 100) H1 10 (1 # 10) H2).
Defined.

Lemma search_inverted_bounds_overshoot_witness :
  (5 # 10 < 9 # 10
   /\ toBlob synthetic_canvas "image/jpeg" (5 # 10)
      = Some (1000 * (5 # 10) * 1024)
   /\ 300 + 5 < size (1000 * (5 # 10) * 1024) / 1024
   /\ 1 < 10)
  /\ 5 # 10 < ((9 # 10) + (5 # 10)) / 2
  /\ exists rest,
       qualities_tried
         (snd (binarySearch 300 "image/jpeg" 10 synthetic_canvas 2
                 (initial_search (9 # 10) (5 # 10))))
       = (5 # 10) :: ((9 # 10) + (5 # 10)) / 2 :: rest.
Proof.
  assert (H1 : 5 # 10 < 9 # 10) by reflexivity.
  assert (H2 : toBlob synthetic_canvas "image/jpeg" (5 # 10)
               = Some (1000 * (5 # 10) * 1024)) by reflexivity.
  assert (H3 : 300 + 5 < size (1000 * (5 # 10) * 1024) / 1024) by reflexivity.
  assert (H4 : 1 < 10) by reflexivity.
  split; [repeat split; assumption|].
  exact (@search_inverted_bounds_overshoot synthetic 300 "image/jpeg" 10
           synthetic_canvas 0 (9 # 10) (5 # 10) _ H1 H2 H3 H4).
Defined.

Lemma call_rejections_witness :
  fst zero_run = Rejected TargetSizeRequired
  /\ snd zero_run = [].
Proof.
  assert (H1 : fst zero_run = Rejected TargetSizeRequired) by reflexivity.
  split; [exact H1|].
  destruct (@call_rejections synthetic 20 tt (Some (options_for 0))
              TargetSizeRequired H1)
    as [(_ & _ & Hc)|[(E & _)|(E & _)]];
    [exact Hc|discriminate E|discriminate E].
Defined.

Lemma call_resolves_witness :
  (targetSizeKB (options_for 1) = Some 1 /\ ~ 1 == 0
   /\ decode tt = Some synthetic_image
   /\ (forall c m q, toBlob c m q <> None)
   /\ (enough_fuel (Some (options_for 1%Q)) <= 20)%nat)
  /\ exists blob, fst unreachable_run = Resolved blob.
Proof.
  assert (H1 : targetSizeKB (options_for 1) = Some 1) by reflexivity.
  assert (H2 : ~ 1 == 0) by (intro E; discriminate E).
  assert (H3 : decode tt = Some synthetic_image) by reflexivity.
  assert (H4 : forall c m q, toBlob c m q <> None)
    by (intros c m q E; discriminate E).
  assert (H5 : (enough_fuel (Some (options_for 1%Q)) <= 20)%nat)
    by (vm_compute; lia).
  split; [repeat split; assumption|].
  exact (@call_resolves synthetic 20 tt (options_for 1) 1 synthetic_image
           H1 H2 H3 H4 H5).
Defined.

Lemma call_without_scale_down_draws_once_witness :
  allowScaleDown (with_allowScaleDown (Some false) (options_for 50))
  = Some false
  /\ (ratios_used (snd fixed_size_run) = []
      \/ ratios_used (snd fixed_size_run) = [1]).
Proof.
  assert (H1 : allowScaleDown
                 (with_allowScaleDown (Some false) (options_for 50))
               = Some false) by reflexivity.
  split; [exact H1|].
  exact (@call_without_scale_down_draws_once synthetic 20 tt
           (with_allowScaleDown (Some false) (options_for 50)) H1).
Defined.

Lemma call_oversized_only_at_floor_witness :
  (targetSizeKB (options_for 1) = Some 1
   /\ fst unreachable_run = Resolved (resolved_blob unreachable_run))
  /\ (size (resolved_blob unreachable_run) / 1024 <= 1 + 5
      \/ allowScaleDown (options_for 1) = Some false
      \/ exists pre rl,
           ratios_used (snd unreachable_run) = pre ++ [rl] /\ rl <= 1 # 4).
Proof.
  assert (H1 : targetSizeKB (options_for 1) = Some 1) by reflexivity.
  assert (H2 : fst unreachable_run = Resolved (resolved_blob unreachable_run))
    by (vm_compute; reflexivity).
  split; [split; assumption|].
  exact (@call_oversized_only_at_floor synthetic 20 tt (options_for 1) 1 _
           H1 H2).
Defined.

Lemma call_kth_ratio_witness :
  nth_error (ratios_used (snd unreachable_run)) 2
  = Some (nth 2 (ratios_used (snd unreachable_run)) 0)
  /\ Qabs (nth 2 (ratios_used (snd unreachable_run)) 0
           - inject_Z (9 ^ Z.of_nat 2) / inject_Z (10 ^ Z.of_nat 2))
     <= 1 # 1000000000000.
Proof.
  assert (H1 : nth_error (ratios_used (snd unreachable_run)) 2
               = Some (nth 2 (ratios_used (snd unreachable_run)) 0))
    by (vm_compute; reflexivity).
  split; [exact H1|].
  exact (proj2 (@call_kth_ratio synthetic 20 tt (Some (options_for 1)) 2 _
                  H1)).
Defined.

Lemma call_stays_on_request_witness :
  decode tt = Some synthetic_image
  /\ Forall (fun e =>
               match e with
               | EvLoad f => f = tt
               | EvDraw i mw mh _ => i = synthetic_image /\ mw = None /\ mh = None
               | EvEncode c m _ =>
                   m = "image/jpeg"%string
                   /\ exists r, c = drawImageToCanvas synthetic_image None None r
               end)
       (snd unreachable_run).
Proof.
  assert (H1 : decode tt = Some synthetic_image) by reflexivity.
  split; [exact H1|].
  exact (@call_stays_on_request synthetic 20 tt (options_for 1)
           synthetic_image H1).
Defined.

Lemma drawImageToCanvas_never_upscales_witness :
  (cap_nonneg (Some 1920) /\ cap_nonneg None /\ 0 <= 3 # 2)
  /\ canvas_width (drawImageToCanvas synthetic_image (Some 1920) None (3 # 2))
     <= N2number (width synthetic_image)
  /\ canvas_height (drawImageToCanvas synthetic_image (Some 1920) None (3 # 2))
     <= N2number (height synthetic_image).
Proof.
  assert (H1 : cap_nonneg (Some 1920))
    by (intros m [= <-]; intro E; discriminate E).
  assert (H2 : cap_nonneg None) by (intros m E; discriminate E).
  assert (H3 : 0 <= 3 # 2) by (intro E; discriminate E).
  split; [repeat split; assumption|].
  destruct (drawImageToCanvas_never_upscales synthetic_image (Some 1920) None
              (3 # 2) H1 H2 H3) as ((_ & Hw) & (_ & Hh)).
  split; assumption.
Defined.

Lemma drawImageToCanvas_whole_pixels_witness :
  (whole_pixels (Some 1920) /\ whole_pixels None /\ 0 <= 81 # 100)
  /\ whole (canvas_width
              (drawImageToCanvas synthetic_image (Some 1920) None (81 # 100)))
  /\ whole (canvas_height
              (drawImageToCanvas synthetic_image (Some 1920) None (81 # 100))).
Proof.
  assert (H1 : whole_pixels (Some 1920)).
  { intros m [= <-]. exists 1920%Z. split; reflexivity. }
  assert (H2 : whole_pixels None) by (intros m E; discriminate E).
  assert (H3 : 0 <= 81 # 100) by (intro E; discriminate E).
  split; [repeat split; assumption|].
  exact (drawImageToCanvas_whole_pixels synthetic_image (Some 1920) None
           (81 # 100) H1 H2 H3).
Defined.

Lemma drawImageToCanvas_scaled_within_half_pixel_witness :
  81 # 100 < 1
  /\ N2number (width synthetic_image) * (81 # 100) - (1 # 2)
     < canvas_width (drawImageToCanvas synthetic_image None None (81 # 100))
  /\ canvas_width (drawImageToCanvas synthetic_image None None (81 # 100))
     <= N2number (width synthetic_image) * (81 # 100) + (1 # 2).
Proof.
  assert (H1 : 81 # 100 < 1) by reflexivity.
  split; [exact H1|].
  destruct (drawImageToCanvas_scaled_within_half_pixel synthetic_image
              (81 # 100) H1) as (Hw & _).
  exact Hw.
Defined.

(** * The bracket of the bisection *)

Section Bracket.
Context `{Browser}.
Variables (target : number) (mime : string) (maxIter : number).
Variable canvas : HTMLCanvasElement.
Variables minQ maxQ : number.

Local Abbreviation visits :=
  (search_visits target mime maxIter canvas (initial_search minQ maxQ)).

Lemma pow2_step (i : Z) :
  (1 <= i)%Z ->
  inject_Z (2 ^ i) == 2 * inject_Z (2 ^ (i - 1)) /\ 0 < inject_Z (2 ^ (i - 1)).
Proof.
  intro Hi. split.
  - replace i with (Z.succ (i - 1)) at 1 by lia.
    rewrite Z.pow_succ_r, inject_Z_mult by lia. reflexivity.
  - change 0 with (inject_Z 0). rewrite <- Zlt_Qlt.
    apply Z.pow_pos_nonneg; lia.
Qed.

(** What every visited state satisfies: before the first encode the search
    is at [high]; from then on it is at the middle of a bracket that the
    encodes so far have halved, all but the first. *)
Lemma bracket_invariant (phase : Phase) (s : SearchState) :
  minQ <= maxQ ->
  visits phase s ->
  low s <= high s
  /\ match phase with
     | BeforeEncode =>
         (iteration s = 0%Z /\ currentQuality s == high s
          /\ high s - low s <= maxQ - minQ)
         \/ ((1 <= iteration s)%Z
             /\ currentQuality s == (low s + high s) * (1 # 2)
             /\ (high s - low s) * inject_Z (2 ^ (iteration s - 1))
                <= maxQ - minQ)
     | AfterEncode =>
         (1 <= iteration s)%Z
         /\ (high s - low s) * inject_Z (2 ^ (iteration s - 1))
            <= maxQ - minQ
     end.
Proof.
  intros Hle Hv.
  induction Hv as [|s blob Hv IH Hblob|s blob Hv IH Hblob Hgo].
  - cbn. split; [exact Hle|]. left. repeat split; lra.
  - destruct IH as (Hlh & IH).
    destruct (recorded_fields target s blob) as (Hit & _ & Hfit & Hover).
    set (s1 := record_attempt target s blob) in *.
    assert (Hcases : (low s1 = currentQuality s /\ high s1 = high s)
                     \/ (low s1 = low s /\ high s1 = currentQuality s)).
    { destruct (Qlt_le_dec target (size blob / 1024)) as [Hgt|Hfits].
      - right. destruct (Hover Hgt) as (-> & -> & _). split; reflexivity.
      - left. destruct (Hfit Hfits) as (-> & -> & _). split; reflexivity. }
    rewrite Hit.
    replace (iteration s + 1 - 1)%Z with (iteration s) by lia.
    destruct IH as [(Hi & Hc & Hw)|(Hi & Hc & Hw)].
    + rewrite Hi. change (inject_Z (2 ^ 0)) with 1.
      destruct Hcases as [(El & Eh)|(El & Eh)]; rewrite El, Eh;
        (split; [lra|]); (split; [lia|]); lra.
    + destruct (pow2_step (iteration s) Hi) as [Hp Hpos].
      rewrite Hp.
      set (P := inject_Z (2 ^ (iteration s - 1))) in *.
      destruct Hcases as [(El & Eh)|(El & Eh)]; rewrite El, Eh;
        (split; [lra|]); (split; [lia|]); rewrite Hc; nra.
  - destruct IH as (Hlh & IH).
    destruct (recorded_fields target s blob) as (Hit & _ & Hfit & Hover).
    set (s1 := record_attempt target s blob) in *.
    assert (Hcases : (low s1 = currentQuality s /\ high s1 = high s)
                     \/ (low s1 = low s /\ high s1 = currentQuality s)).
    { destruct (Qlt_le_dec target (size blob / 1024)) as [Hgt|Hfits].
      - right. destruct (Hover Hgt) as (-> & -> & _). split; reflexivity.
      - left. destruct (Hfit Hfits) as (-> & -> & _). split; reflexivity. }
    change (low (bisect s1)) with (low s1).
    change (high (bisect s1)) with (high s1).
    change (iteration (bisect s1)) with (iteration s1).
    change (currentQuality (bisect s1)) with ((low s1 + high s1) * (1 # 2)).
    rewrite Hit.
    replace (iteration s + 1 - 1)%Z with (iteration s) by lia.
    assert (Hnew : low s1 <= high s1
                   /\ (high s1 - low s1) * inject_Z (2 ^ iteration s)
                      <= maxQ - minQ).
    { destruct IH as [(Hi & Hc & Hw)|(Hi & Hc & Hw)].
      - rewrite Hi. change (inject_Z (2 ^ 0)) with 1.
        destruct Hcases as [(El & Eh)|(El & Eh)]; rewrite El, Eh; split; lra.
      - destruct (pow2_step (iteration s) Hi) as [Hp Hpos].
        rewrite Hp.
        set (P := inject_Z (2 ^ (iteration s - 1))) in *.
        destruct Hcases as [(El & Eh)|(El & Eh)]; rewrite El, Eh;
          (split; [lra|]); rewrite Hc; nra. }
    destruct Hnew as [Hlh' Hw'].
    split; [exact Hlh'|]. right.
    assert (Hi0 : (0 <= iteration s)%Z)
      by (destruct IH as [(Hi & _)|(Hi & _)]; lia).
    split; [lia|]. split; [reflexivity|exact Hw'].
Qed.

(** X18.  The bisection halves its bracket: with
    [0 <= minQuality <= maxQuality <= 1], a state the search reaches after
    [i >= 1] encodes has [low <= currentQuality <= high] and, to within
    [10 ^ -12], [high - low <= (maxQuality - minQuality) / 2 ^ (i - 1)] with
    the next encode at the middle of that bracket. *)
Theorem search_bracket_halves (s : SearchState) :
  0 <= minQ -> minQ <= maxQ -> maxQ <= 1 ->
  visits BeforeEncode s ->
  (1 <= iteration s)%Z ->
  (low s <= currentQuality s /\ currentQuality s <= high s)
  /\ Qabs (currentQuality s - (low s + high s) / 2) <= 1 # 1000000000000
  /\ high s - low s
     <= (maxQ - minQ) / inject_Z (2 ^ (iteration s - 1))
        + (1 # 1000000000000).
Proof.
  intros H0 Hle H1 Hv Hi.
  destruct (bracket_invariant BeforeEncode s Hle Hv)
    as (Hlh & [(Hi0 & _)|(_ & Hc & Hw)]); [lia|].
  assert (Hp : 0 < inject_Z (2 ^ (iteration s - 1))).
  { change 0 with (inject_Z 0). rewrite <- Zlt_Qlt.
    apply Z.pow_pos_nonneg; lia. }
  split; [rewrite Hc; lra|]. split.
  - change ((low s + high s) / 2) with ((low s + high s) * (1 # 2)).
    setoid_replace (currentQuality s - (low s + high s) * (1 # 2)) with 0
      by (rewrite Hc; ring).
    intro E. discriminate E.
  - assert (Hdiv : high s - low s
                   <= (maxQ - minQ) / inject_Z (2 ^ (iteration s - 1)))
      by (apply Qle_shift_div_l; assumption).
    lra.
Qed.
End Bracket.

Lemma search_bracket_halves_witness :
  (0 <= 1 # 10 /\ 1 # 10 <= 95 # 100 /\ 95 # 100 <= 1
   /\ search_visits 300 "image/jpeg" 10 synthetic_canvas
        (initial_search (1 # 10) (95 # 100)) BeforeEncode
        synthetic_second_state
   /\ (1 <= iteration synthetic_second_state)%Z)
  /\ (low synthetic_second_state <= currentQuality synthetic_second_state
      /\ currentQuality synthetic_second_state <= high synthetic_second_state)
  /\ high synthetic_second_state - low synthetic_second_state
     <= ((95 # 100) - (1 # 10))
        / inject_Z (2 ^ (iteration synthetic_second_state - 1))
        + (1 # 1000000000000).
Proof.
  assert (H0 : 0 <= 1 # 10) by (intro E; discriminate E).
  assert (H1 : 1 # 10 <= 95 # 100) by (intro E; discriminate E).
  assert (H1' : 95 # 100 <= 1) by (intro E; discriminate E).
  assert (H2 : search_visits 300 "image/jpeg" 10 synthetic_canvas
                 (initial_search (1 # 10) (95 # 100)) BeforeEncode
                 synthetic_second_state).
  { apply visit_bisect; [apply visit_start|reflexivity|reflexivity]. }
  assert (H3 : (1 <= iteration synthetic_second_state)%Z)
    by (vm_compute; intro E; discriminate E).
  split; [repeat split; assumption|].
  destruct (@search_bracket_halves synthetic 300 "image/jpeg" 10
              synthetic_canvas (1 # 10) (95 # 100) _ H0 H1 H1' H2 H3)
    as (Hc & _ & Hw).
  split; [exact Hc|exact Hw].
Defined.


(** * Qualities over a whole call *)

Section CallQualities.
Context `{Browser}.
Variables (target : number) (mime : string).
Variables (maxW maxH : option number) (maxIter minQ maxQ : number).
Variable allow : bool.
Variable img : HTMLImageElement.

Local Abbreviation attempt :=
  (attemptCompression target mime maxW maxH maxIter minQ maxQ allow img).
Local Abbreviation search_on r :=
  (binarySearch target mime maxIter (drawImageToCanvas img maxW maxH r)).

Lemma attempt_qualities_within (sf fuel : nat) :
  minQ <= maxQ ->
  forall r, Forall (fun q => minQ <= q /\ q <= maxQ)
                   (qualities_tried (snd (attempt sf fuel r))).
Proof.
  intro Hle. induction fuel as [|fuel IH]; intro r; [constructor|].
  destruct (attempt_calls target mime maxW maxH maxIter minQ maxQ allow img
              sf fuel r) as (rest & -> & Hrest).
  rewrite qualities_tried_draw, qualities_tried_app. apply Forall_app. split.
  - apply (search_qualities_within target mime maxIter _ sf
             (initial_search minQ maxQ)); cbn; lra.
  - destruct Hrest as [->|(-> & _)]; [constructor|apply IH].
Qed.

Lemma draws_start_at_encodes (q0 : number) (c : HTMLCanvasElement)
    (qs : list number) (rest : list Event) :
  draws_start_at q0 (map (EvEncode c mime) qs ++ rest)
  <-> draws_start_at q0 rest.
Proof.
  induction qs as [|q qs IH]; [reflexivity|]. cbn [map app draws_start_at].
  exact IH.
Qed.

Lemma search_first_call (canvas : HTMLCanvasElement) (fuel : nat)
    (s : SearchState) :
  exists tl,
    snd (binarySearch target mime maxIter canvas (S fuel) s)
    = EvEncode canvas mime (currentQuality s) :: tl.
Proof.
  rewrite binarySearch_S.
  destruct (toBlob canvas mime (currentQuality s)) as [blob|];
    [|eexists; reflexivity].
  destruct (search_done _ _ _ _); eexists; reflexivity.
Qed.

Lemma attempt_draws_start_at (sf fuel : nat) :
  forall r, draws_start_at maxQ (snd (attempt (S sf) fuel r)).
Proof.
  induction fuel as [|fuel IH]; intro r; [exact I|].
  destruct (attempt_calls target mime maxW maxH maxIter minQ maxQ allow img
              (S sf) fuel r) as (rest & -> & Hrest).
  assert (Hrest' : draws_start_at maxQ rest)
    by (destruct Hrest as [->|(-> & _)]; [exact I|apply IH]).
  cbn [draws_start_at]. split.
  - destruct (search_first_call (drawImageToCanvas img maxW maxH r) sf
                (initial_search minQ maxQ)) as (tl & ->).
    cbn [app]. split; reflexivity.
  - rewrite search_calls_are_encodes. apply draws_start_at_encodes.
    exact Hrest'.
Qed.
End CallQualities.

Section CallQualitiesOfRequest.
Context `{Browser}.

(** X19.  With effective bounds [minQuality <= maxQuality] (0.1 and 0.95
    unless given and truthy), no encode of a call, at any attempt, is at a
    quality outside these bounds. *)
Theorem call_qualities_in_range (fuel : nat) (file : File) (o : Options) :
  or_number (minQuality o) (1 # 10) <= or_number (maxQuality o) (95 # 100) ->
  Forall (fun q => or_number (minQuality o) (1 # 10) <= q
                   /\ q <= or_number (maxQuality o) (95 # 100))
         (qualities_tried (snd (compressImageToTarget fuel file (Some o)))).
Proof.
  intro Hle.
  destruct (compressImageToTarget_cases fuel file (Some o))
    as [[_ E]|[(_ & _ & E)|(o' & t & img & Eo & _ & _ & _ & E)]];
    rewrite E; cbn [snd]; try constructor.
  injection Eo as <-. rewrite qualities_tried_load.
  apply attempt_qualities_within. exact Hle.
Qed.

(** X20.  Every attempt starts its search afresh: each draw of a call is
    directly followed by an encode of the canvas just drawn, at the
    effective [maxQuality], whatever the previous attempt had narrowed its
    bounds to. *)
Theorem call_attempts_start_at_maxQuality (fuel : nat) (file : File)
    (o : Options) :
  draws_start_at (or_number (maxQuality o) (95 # 100))
    (snd (compressImageToTarget fuel file (Some o))).
Proof.
  destruct (compressImageToTarget_cases fuel file (Some o))
    as [[_ E]|[(_ & _ & E)|(o' & t & img & Eo & _ & _ & _ & E)]];
    rewrite E; cbn [snd]; try exact I.
  injection Eo as <-. cbn [draws_start_at].
  destruct fuel as [|fuel]; [exact I|].
  apply attempt_draws_start_at.
Qed.
End CallQualitiesOfRequest.

Lemma call_qualities_in_range_witness :
  or_number (minQuality (options_for 1)) (1 # 10)
  <= or_number (maxQuality (options_for 1)) (95 # 100)
  /\ Forall (fun q => or_number (minQuality (options_for 1)) (1 # 10) <= q
                      /\ q <= or_number (maxQuality (options_for 1)) (95 # 100))
       (qualities_tried (snd unreachable_run)).
Proof.
  assert (H1 : or_number (minQuality (options_for 1)) (1 # 10)
               <= or_number (maxQuality (options_for 1)) (95 # 100))
    by (intro E; discriminate E).
  split; [exact H1|].
  exact (@call_qualities_in_range synthetic 20 tt (options_for 1) H1).
Defined.
